(** * university_scraper.py: extraction, reconciliation and relational assembly

    A shallow embedding of [src/university_scraper.py].

    Text.  Python [str] values are modelled as [string]; a character is read
    as its code point.  The embedding is exact on ASCII text (code points
    0..127): whitespace is Python's [str.isspace] on that range, which is
    also what [\s], [str.strip()] and [str.split()] use, and case mapping is
    [str.lower]/[str.upper] on that range.  Characters above 127 are kept as
    uncased, non-space, non-digit symbols.

    Pages.  BeautifulSoup documents are modelled by what the selectors of the
    source read off them: the list, in document order, of the elements a
    [select] returns, each with the text [get_text(" ", strip=True)] gives
    for the sub-elements the code looks at ([None] when [select_one]/[find]
    finds nothing).

    Dictionaries are [gmap string string]; [None] is [None]. *)

From Stdlib Require Import Ascii String Arith Lia Bool List.
From Stdlib Require Import DecimalString DecimalNat.
From stdpp Require Import base option gmap strings list.

Local Open Scope list_scope.

(** ** Characters *)

Module Char.

Definition code (c : ascii) : nat := nat_of_ascii c.

Definition in_range (lo hi : nat) (c : ascii) : bool :=
  (lo <=? code c) && (code c <=? hi).

(** [str.isspace] on one ASCII character: TAB..CR, FS..US and SPACE. *)
Definition is_space (c : ascii) : bool :=
  in_range 9 13 c || in_range 28 32 c.

Definition is_upper (c : ascii) : bool := in_range 65 90 c.
Definition is_lower (c : ascii) : bool := in_range 97 122 c.

(** [\d] *)
Definition is_digit (c : ascii) : bool := in_range 48 57 c.

(** [\w] *)
Definition is_word (c : ascii) : bool :=
  is_upper c || is_lower c || is_digit c || (code c =? 95).

Definition lower (c : ascii) : ascii :=
  if is_upper c then ascii_of_nat (code c + 32) else c.

Definition upper (c : ascii) : ascii :=
  if is_lower c then ascii_of_nat (code c - 32) else c.

Definition eqb (a b : ascii) : bool := Ascii.eqb a b.

End Char.

(** ** Strings: the [str] methods and regular expressions the source uses *)

Definition SENTINEL : string := "N/A".

Definition is_empty (s : string) : bool :=
  match s with "" => true | _ => false end.

Fixpoint str_len (s : string) : nat :=
  match s with "" => 0 | String _ r => S (str_len r) end.

Fixpoint str_map (f : ascii → ascii) (s : string) : string :=
  match s with "" => "" | String c r => String (f c) (str_map f r) end.

Fixpoint str_forallb (p : ascii → bool) (s : string) : bool :=
  match s with "" => true | String c r => p c && str_forallb p r end.

Fixpoint str_existsb (p : ascii → bool) (s : string) : bool :=
  match s with "" => false | String c r => p c || str_existsb p r end.

(** [s.lower()] *)
Definition lower (s : string) : string := str_map Char.lower s.

(** [s[:n]] for [n >= 0] *)
Fixpoint str_take (n : nat) (s : string) : string :=
  match n, s with
  | S n', String c r => String c (str_take n' r)
  | _, _ => ""
  end.

(** [s[n:]] for [n >= 0] *)
Fixpoint str_drop (n : nat) (s : string) : string :=
  match n, s with
  | S n', String _ r => str_drop n' r
  | _, _ => s
  end.

(** [s[:-n]] for the [n = len(t)] of the source.  Python reads [s[:-0]] as
    [s[:0]], the empty string. *)
Definition slice_to_neg (s : string) (n : nat) : string :=
  match n with
  | 0 => ""
  | _ => str_take (str_len s - n) s
  end.

(** [s.startswith(p)] *)
Fixpoint startswith (s p : string) : bool :=
  match p, s with
  | "", _ => true
  | String a p', String b s' => Char.eqb a b && startswith s' p'
  | String _ _, "" => false
  end.

(** [s.endswith(p)] *)
Definition endswith (s p : string) : bool :=
  (str_len p <=? str_len s) && String.eqb (str_drop (str_len s - str_len p) s) p.

(** [p in s] *)
Fixpoint contains (p s : string) : bool :=
  startswith s p ||
  match s with
  | "" => false
  | String _ r => contains p r
  end.

(** [s.lstrip(chars)], [s.rstrip(chars)] and [s.strip(chars)], for the set
    of characters given by [p]. *)
Fixpoint lstrip_by (p : ascii → bool) (s : string) : string :=
  match s with
  | "" => ""
  | String c r => if p c then lstrip_by p r else s
  end.

Fixpoint rstrip_by (p : ascii → bool) (s : string) : string :=
  match s with
  | "" => ""
  | String c r =>
      let r' := rstrip_by p r in
      if p c && is_empty r' then "" else String c r'
  end.

Definition strip_by (p : ascii → bool) (s : string) : string :=
  rstrip_by p (lstrip_by p s).

(** [s.lstrip()], [s.rstrip()], [s.strip()] *)
Definition lstrip : string → string := lstrip_by Char.is_space.
Definition rstrip : string → string := rstrip_by Char.is_space.
Definition strip : string → string := strip_by Char.is_space.

(** [re.sub(r"\s+", " ", s)]: every maximal run of whitespace becomes one
    space.  The flag records that the previous character belonged to a run
    that has already been replaced. *)
Fixpoint sub_ws_go (in_run : bool) (s : string) : string :=
  match s with
  | "" => ""
  | String c r =>
      if Char.is_space c
      then (if in_run then sub_ws_go true r else String " " (sub_ws_go true r))
      else String c (sub_ws_go false r)
  end.

Definition re_sub_ws (s : string) : string := sub_ws_go false s.

Definition starts_word (s : string) : bool :=
  match s with
  | String c _ => negb (Char.is_space c)
  | "" => false
  end.

(** [s.split()]: the maximal runs of non-whitespace characters. *)
Fixpoint split_ws (s : string) : list string :=
  match s with
  | "" => []
  | String c r =>
      if Char.is_space c then split_ws r
      else if starts_word r
           then match split_ws r with
                | w :: ws => String c w :: ws
                | [] => [String c ""]
                end
           else String c "" :: split_ws r
  end.

(** [s.split(sep)] for a one-character separator. *)
Fixpoint split_on (sep : ascii) (s : string) : list string :=
  match s with
  | "" => [""]
  | String c r =>
      if Char.eqb c sep then "" :: split_on sep r
      else match split_on sep r with
           | w :: ws => String c w :: ws
           | [] => [String c ""]
           end
  end.

(** [sep.join(ws)] *)
Fixpoint join (sep : string) (ws : list string) : string :=
  match ws with
  | [] => ""
  | [w] => w
  | w :: ws' => w +:+ sep +:+ join sep ws'
  end.

(** ** [clean_text] (lines 91-95) *)

Definition clean_text (value : option string) : string :=
  match value with
  | None => "N/A"
  | Some v =>
      let text := strip (re_sub_ws v) in
      if is_empty text then "N/A" else text
  end.

(** ** Configuration constants (lines 13-84) *)

Definition BASE_URL : string := "https://www.topuniversities.com".
Definition MIN_COURSES_PER_UNIVERSITY : nat := 5.
Definition TARGET_COUNTRY : string := "India".

(** [x in {...}] for a set literal of strings *)
Definition str_in (x : string) (xs : list string) : bool :=
  existsb (String.eqb x) xs.

Definition ALLOWED_LEVEL_SEGMENTS : list string :=
  ["undergrad"; "bachelors"; "masters"; "phd"; "postgrad"; "mba"; "diploma";
   "cert"; "foundation"].

Definition LEVEL_BY_SEGMENT : gmap string string :=
  <["undergrad" := "Bachelor"]> (
  <["bachelors" := "Bachelor"]> (
  <["masters" := "Master"]> (
  <["postgrad" := "Master"]> (
  <["phd" := "PhD"]> (
  <["mba" := "MBA"]> (
  <["diploma" := "Diploma"]> (
  <["cert" := "Certificate"]> (
  <["foundation" := "Foundation"]> ∅)))))))).

Definition COUNTRY_ALIASES : gmap string string :=
  <["Us" := "United States"]> (
  <["U.S." := "United States"]> (
  <["Usa" := "United States"]> (
  <["Uk" := "United Kingdom"]> (
  <["England" := "United Kingdom"]> ∅)))).

(** [d.get(k, dflt)] *)
Definition dict_get_default (d : gmap string string) (k dflt : string) : string :=
  default dflt (d !! k).

(** Truthiness of a value that is [None] or a [str]. *)
Definition truthy (v : option string) : bool :=
  match v with
  | Some s => negb (is_empty s)
  | None => false
  end.

(** [a or b] *)
Definition py_or (a b : option string) : option string :=
  if truthy a then a else b.

(** ** [smart_title_case] (lines 98-113) *)

Definition small_words : list string :=
  ["and"; "or"; "of"; "the"; "in"; "on"; "for"; "to"; "at"; "by"; "with"].

(** [w.isupper()]: some cased character, and no lower-case one. *)
Definition isupper (w : string) : bool :=
  str_existsb Char.is_upper w && negb (str_existsb Char.is_lower w).

(** [w.capitalize()] *)
Definition capitalize (w : string) : string :=
  match w with
  | "" => ""
  | String c r => String (Char.upper c) (lower r)
  end.

(** The body of the loop over [enumerate(text.split())]. *)
Definition title_word (i : nat) (word : string) : string :=
  if isupper word && (str_len word <=? 5) then word
  else if (0 <? i) && str_in (lower word) small_words then lower word
  else capitalize word.

Definition smart_title_case (text : string) : string :=
  let text := clean_text (Some text) in
  if String.eqb text "N/A" then text
  else
    let titled := join " " (imap title_word (split_ws text)) in
    dict_get_default COUNTRY_ALIASES titled titled.

(** ** Source B: the encyclopedia page (lines 154-227) *)

(** A [td] cell: its text, and the [href] of its first [a[href]] if any. *)
Record td_cell := { td_text : string; td_href : option string }.

(** A [tr] of the infobox: [row.find("th")] and [row.find("td")]. *)
Record infobox_row := { row_th : option string; row_td : option td_cell }.

Record wiki_soup := {
  firstHeading : option string;            (* soup.select_one("#firstHeading") *)
  infobox : option (list infobox_row)      (* soup.select_one("table.infobox") *)
}.

(** [re.sub(r"\[[^\]]*\]", "", s)]: an opening bracket starts a match when a
    closing bracket follows somewhere; the match ends at the first one. *)
Fixpoint has_close (s : string) : bool :=
  match s with
  | "" => false
  | String c r => Char.eqb c "]" || has_close r
  end.

Fixpoint sub_brackets_go (inside : bool) (s : string) : string :=
  match s with
  | "" => ""
  | String c r =>
      if inside
      then (if Char.eqb c "]" then sub_brackets_go false r
            else sub_brackets_go true r)
      else if Char.eqb c "[" && has_close r then sub_brackets_go true r
      else String c (sub_brackets_go false r)
  end.

Definition re_sub_brackets (s : string) : string := sub_brackets_go false s.

(** [re.search(r"\d", s)] *)
Definition has_digit (s : string) : bool := str_existsb Char.is_digit s.

(** [re.search(r"\b[NSWE]\b", s)]: one of the four letters with no word
    character on either side. *)
Definition is_compass (c : ascii) : bool :=
  Char.eqb c "N" || Char.eqb c "S" || Char.eqb c "W" || Char.eqb c "E".

Definition next_is_word (s : string) : bool :=
  match s with
  | String c _ => Char.is_word c
  | "" => false
  end.

Fixpoint lone_compass_go (prev_word : bool) (s : string) : bool :=
  match s with
  | "" => false
  | String c r =>
      (negb prev_word && is_compass c && negb (next_is_word r))
      || lone_compass_go (Char.is_word c) r
  end.

Definition has_lone_compass (s : string) : bool := lone_compass_go false s.

(** Lines 160-168: the first row labelled location or address. *)
Fixpoint find_location_raw (rows : list infobox_row) : string :=
  match rows with
  | [] => "N/A"
  | row :: rest =>
      match row_th row, row_td row with
      | Some header, Some cell =>
          let label := lower (clean_text (Some header)) in
          if str_in label ["location"; "address"]
          then clean_text (Some (td_text cell))
          else find_location_raw rest
      | _, _ => find_location_raw rest
      end
  end.

(** Lines 175-183: the filter over the cleaned comma-separated parts. *)
Definition keep_part (part : string) : bool :=
  negb (String.eqb part "N/A") && negb (has_digit part)
  && negb (has_lone_compass part).

(** Lines 170-192: from the text of the location cell to city and country. *)
Definition parse_location (location_raw : string) : string * string :=
  if String.eqb location_raw "N/A" then ("N/A", "N/A")
  else
    let cleaned := re_sub_brackets location_raw in
    let parts := map (λ p, clean_text (Some p)) (split_on "," cleaned) in
    let filtered_parts := List.filter keep_part parts in
    match filtered_parts with
    | [] => ("N/A", "N/A")
    | [only] => (smart_title_case only, "N/A")
    | first :: _ =>
        (smart_title_case first, smart_title_case (List.last filtered_parts ""))
    end.

Definition extract_city_country_from_wikipedia (soup : wiki_soup)
  : string * string :=
  match infobox soup with
  | None => ("N/A", "N/A")
  | Some rows => parse_location (find_location_raw rows)
  end.

(** Lines 208-225: the first row labelled website. *)
Fixpoint find_website (rows : list infobox_row) : string :=
  match rows with
  | [] => "N/A"
  | row :: rest =>
      match row_th row, row_td row with
      | Some header, Some cell =>
          let label := lower (clean_text (Some header)) in
          if String.eqb label "website"
          then match td_href cell with
               | Some raw =>
                   let href := clean_text (Some raw) in
                   if startswith href "//" then "https:" +:+ href
                   else if startswith href "/"
                        then "https://en.wikipedia.org" +:+ href
                        else href
               | None => clean_text (Some (td_text cell))
               end
          else find_website rest
      | _, _ => find_website rest
      end
  end.

(** [extract_website_from_wikipedia], from the outcome of its [fetch_html]:
    [None] when the page could not be fetched. *)
Definition extract_website_from_wikipedia (wiki_html : option wiki_soup)
  : string * string * string * string :=
  match wiki_html with
  | None => ("N/A", "N/A", "N/A", "N/A")
  | Some soup =>
      let wiki_name :=
        match firstHeading soup with
        | Some h => clean_text (Some h)
        | None => "N/A"
        end in
      let '(city, country) := extract_city_country_from_wikipedia soup in
      let website :=
        match infobox soup with
        | Some rows => find_website rows
        | None => "N/A"
        end in
      (wiki_name, city, country, website)
  end.

(** ** Source A: the ranking site (lines 230-271) *)

(** The structured data of a page as the extractor reads it.  A value read
    with [.get] and passed to [clean_text] or to [or] is given by its
    [str()]: [None] when the key is absent, the value is null, or (for a
    name) it is a non-string value that is false. *)

(** [department.get("address", {})], when it is a dict (an absent address is
    the empty dict). *)
Record ld_address := {
  addressLocality : option string;
  addressCountry : option string
}.

Record ld_object := {
  ld_type : option string;        (* obj.get("@type"), when it is a string *)
  ld_name : option string;        (* obj.get("name") *)
  ld_main_entity : option (option string);
    (* obj.get("mainEntity", {}): [None] when it is not a dict, otherwise
       its "name" *)
  ld_department : option (list (option ld_address))
    (* obj.get("department", []): [None] when it is not a list; an item is
       [None] when it, or its address, is not a dict *)
}.

Record topuni_soup := {
  jsonld_objects : list (option ld_object);
    (* parse_jsonld_objects(soup); an item is [None] when it is not a dict *)
  topuni_h1 : option string;      (* soup.find("h1") *)
  anchors : list string           (* the href of each a[href] *)
}.

(** Lines 251-264: the loop over the departments, from the city and country
    found so far. *)
Fixpoint department_loop (departments : list (option ld_address))
    (city country : string) : string * string :=
  match departments with
  | [] => (city, country)
  | None :: rest => department_loop rest city country
  | Some address :: rest =>
      let candidate_city := clean_text (addressLocality address) in
      let candidate_country := clean_text (addressCountry address) in
      let city :=
        if negb (String.eqb candidate_city "N/A")
        then smart_title_case candidate_city else city in
      let country :=
        if negb (String.eqb candidate_country "N/A")
        then smart_title_case candidate_country else country in
      if negb (String.eqb city "N/A") || negb (String.eqb country "N/A")
      then (city, country)
      else department_loop rest city country
  end.

Definition type_is (obj : ld_object) (name : string) : bool :=
  match ld_type obj with
  | Some t => String.eqb t name
  | None => false
  end.

(** Lines 238-264: one iteration of the loop over the structured-data
    objects. *)
Definition jsonld_step (found : string * string * string)
    (item : option ld_object) : string * string * string :=
  match item with
  | None => found
  | Some obj =>
      let '(university_name, city, country) := found in
      let university_name :=
        if type_is obj "ProfilePage"
        then match ld_main_entity obj with
             | Some entity_name =>
                 clean_text
                   (py_or entity_name (py_or (ld_name obj) (Some university_name)))
             | None => university_name
             end
        else university_name in
      if type_is obj "CollegeOrUniversity"
      then
        let university_name :=
          clean_text (py_or (ld_name obj) (Some university_name)) in
        match ld_department obj with
        | Some departments =>
            let '(city, country) := department_loop departments city country in
            (university_name, city, country)
        | None => (university_name, city, country)
        end
      else (university_name, city, country)
  end.

Definition extract_university_meta_from_topuniversities (soup : topuni_soup)
  : string * string * string :=
  let '(university_name, city, country) :=
    foldl jsonld_step ("N/A", "N/A", "N/A") (jsonld_objects soup) in
  let university_name :=
    if String.eqb university_name "N/A"
    then match topuni_h1 soup with
         | Some heading => clean_text (Some heading)
         | None => university_name
         end
    else university_name in
  (university_name, city, country).

(** ** Program links (lines 274-300) *)

(** [urljoin(BASE_URL, href)] for an absolute path [href] without dot
    segments: the path replaces the (empty) path of [BASE_URL]. *)
Definition urljoin_base (href : string) : string := BASE_URL +:+ href.

Definition is_slash (c : ascii) : bool := Char.eqb c "/".

(** [s.split(sep)[0]] *)
Definition split_head (sep : ascii) (s : string) : string :=
  hd "" (split_on sep s).

(** One iteration of the loop over [soup.select("a[href]")]; [links] is kept
    in discovery order and doubles as the [seen] set. *)
Definition program_link_step (slug : string) (links : list string)
    (anchor_href : string) : list string :=
  let href := clean_text (Some anchor_href) in
  if String.eqb href "N/A" then links
  else
    let href := strip (split_head "#" (split_head "?" href)) in
    if negb (startswith href ("/universities/" +:+ slug +:+ "/")) then links
    else
      let parts := split_on "/" (strip_by is_slash href) in
      if length parts <? 4 then links
      else
        let level_segment := lower (nth 2 parts "") in
        if negb (str_in level_segment ALLOWED_LEVEL_SEGMENTS) then links
        else
          let normalized_url := urljoin_base href in
          if str_in normalized_url links then links
          else links ++ [normalized_url].

Definition extract_program_links (anchors : list string) (slug : string)
  : list string :=
  foldl (program_link_step slug) [] anchors.

(** ** Course pages (lines 303-432) *)

(** A [div.single-badge]: the texts of its title and value sub-elements. *)
Record badge_div := { badge_title : option string; badge_value : option string }.

(** A [div.prog-view-highli]: the texts of its [h3] and [p]. *)
Record highlight_div := { highlight_key : option string; highlight_value : option string }.

(** A [div.univ-entry]: the texts of its label and value. *)
Record entry_div := { entry_label : option string; entry_value : option string }.

(** An [h2]/[h3]/[h4]: its text, and the text of the next [p]/[li]/[div]. *)
Record heading_tag := { heading_text : string; heading_next : option string }.

Record course_soup := {
  h1 : option string;                      (* soup.find("h1") *)
  badge_divs : list badge_div;             (* soup.select("div.single-badge") *)
  highlight_divs : list highlight_div;     (* soup.select("div.prog-view-highli") *)
  entry_divs : list entry_div;             (* soup.select("div.univ-entry") *)
  headings : list heading_tag              (* soup.find_all(["h2","h3","h4"]) *)
}.

(** Lines 311-314: the value stored for a badge with this title and value
    text. *)
Definition badge_stored_value (title value : string) : string :=
  if negb (String.eqb value "N/A") && negb (String.eqb title "N/A")
     && endswith (lower value) (lower title)
  then clean_text (Some (slice_to_neg value (str_len title)))
  else value.

Definition badge_step (badges : gmap string string) (badge : badge_div)
  : gmap string string :=
  match badge_title badge, badge_value badge with
  | Some title_text, Some value_text =>
      let title := clean_text (Some title_text) in
      let value := clean_text (Some value_text) in
      <[lower title := badge_stored_value title value]> badges
  | _, _ => badges
  end.

Definition extract_badges (divs : list badge_div) : gmap string string :=
  foldl badge_step ∅ divs.

Definition highlight_step (highlights : gmap string string)
    (block : highlight_div) : gmap string string :=
  match highlight_key block, highlight_value block with
  | Some key_text, Some value_text =>
      let key := lower (clean_text (Some key_text)) in
      let value := clean_text (Some value_text) in
      if negb (is_empty key) && negb (bool_decide (is_Some (highlights !! key)))
         && negb (String.eqb value "N/A")
      then <[key := value]> highlights
      else highlights
  | _, _ => highlights
  end.

Definition extract_highlights (divs : list highlight_div) : gmap string string :=
  foldl highlight_step ∅ divs.

(** Lines 336-345: the loop that collects at most five label/value pairs. *)
Fixpoint eligibility_pairs (pairs : list string) (blocks : list entry_div)
  : list string :=
  match blocks with
  | [] => pairs
  | block :: rest =>
      let label := match entry_label block with
                   | Some t => clean_text (Some t) | None => "N/A" end in
      let value := match entry_value block with
                   | Some t => clean_text (Some t) | None => "N/A" end in
      let pairs :=
        if negb (String.eqb label "N/A") && negb (String.eqb value "N/A")
        then pairs ++ [label +:+ ": " +:+ value] else pairs in
      if 5 <=? length pairs then pairs else eligibility_pairs pairs rest
  end.

(** Lines 350-358: the heading scan. *)
Fixpoint eligibility_scan (hs : list heading_tag) : string :=
  match hs with
  | [] => "N/A"
  | heading :: rest =>
      let heading_text := lower (clean_text (Some (heading_text heading))) in
      if contains "admission" heading_text || contains "eligibility" heading_text
         || contains "entry requirement" heading_text
      then match heading_next heading with
           | Some candidate =>
               let snippet := clean_text (Some candidate) in
               if negb (String.eqb snippet "N/A") then str_take 220 snippet
               else eligibility_scan rest
           | None => eligibility_scan rest
           end
      else eligibility_scan rest
  end.

Definition extract_eligibility (soup : course_soup) : string :=
  match eligibility_pairs [] (entry_divs soup) with
  | [] => eligibility_scan (headings soup)
  | pairs => join "; " pairs
  end.

(** [urlparse(url).path] for [scheme://authority/path?query#fragment]
    without [;parameters]: what follows the authority, up to the first [?]
    or [#]. *)
Fixpoint after_scheme (s : string) : option string :=
  if startswith s "://" then Some (str_drop 3 s)
  else match s with
       | "" => None
       | String _ r => after_scheme r
       end.

Fixpoint take_until (stop : ascii → bool) (s : string) : string :=
  match s with
  | "" => ""
  | String c r => if stop c then "" else String c (take_until stop r)
  end.

Fixpoint drop_until (stop : ascii → bool) (s : string) : string :=
  match s with
  | "" => ""
  | String c r => if stop c then s else drop_until stop r
  end.

Definition is_path_end (c : ascii) : bool := Char.eqb c "?" || Char.eqb c "#".
Definition is_authority_end (c : ascii) : bool := is_slash c || is_path_end c.

Definition url_path (url : string) : string :=
  match after_scheme url with
  | Some rest => take_until is_path_end (drop_until is_authority_end rest)
  | None => take_until is_path_end url
  end.

Definition url_level_segment (course_url : string) : string :=
  let path_parts := split_on "/" (strip_by is_slash (url_path course_url)) in
  if 3 <=? length path_parts then lower (nth 2 path_parts "") else "".

Definition normalize_level (raw_level : string) (course_url : string) : string :=
  let value := lower (clean_text (Some raw_level)) in
  if contains "undergraduate" value || contains "bachelor" value then "Bachelor"
  else if contains "postgraduate" value || contains "master" value then "Master"
  else if contains "phd" value || contains "doctoral" value then "PhD"
  else if contains "diploma" value then "Diploma"
  else if contains "certificate" value then "Certificate"
  else if contains "mba" value then "MBA"
  else dict_get_default LEVEL_BY_SEGMENT (url_level_segment course_url) "N/A".

(** The regular expression of [guess_discipline], with [re.IGNORECASE]:
    [^(Bachelor|Master|BA|BSc|MSc|MA|PhD|Doctor of|Diploma in)\s*(of|in)?\s*].
    Everything after the alternation can match the empty string, so the first
    alternative that matches is the one used. *)
Definition degree_prefixes : list string :=
  ["Bachelor"; "Master"; "BA"; "BSc"; "MSc"; "MA"; "PhD"; "Doctor of"; "Diploma in"].

Definition startswith_ci (s p : string) : bool := startswith (lower s) (lower p).

Fixpoint match_degree (alts : list string) (s : string) : option string :=
  match alts with
  | [] => None
  | alt :: rest =>
      if startswith_ci s alt then Some (str_drop (str_len alt) s)
      else match_degree rest s
  end.

Definition match_of_in (s : string) : string :=
  if startswith_ci s "of" then str_drop 2 s
  else if startswith_ci s "in" then str_drop 2 s
  else s.

Definition sub_degree_prefix (s : string) : string :=
  match match_degree degree_prefixes s with
  | Some rest => lstrip (match_of_in (lstrip rest))
  | None => s
  end.

(** [s.replace("-", " ")] *)
Definition replace_hyphens (s : string) : string :=
  str_map (λ c, if Char.eqb c "-" then " "%char else c) s.

Definition guess_discipline (course_name : string) (course_url : string) : string :=
  let course_name := clean_text (Some course_name) in
  let possible := strip (sub_degree_prefix course_name) in
  if negb (String.eqb course_name "N/A") && negb (is_empty possible)
     && (length (split_ws possible) <=? 6)
  then smart_title_case possible
  else
    let slug :=
      replace_hyphens
        (clean_text (Some (List.last (split_on "/" (rstrip_by is_slash course_url)) ""))) in
    smart_title_case slug.

Module Course.
Record t := {
  university_id : string;
  course_name : string;
  level : string;
  discipline : string;
  duration : string;
  fees : string;
  eligibility : string
}.
End Course.

(** [scrape_course] on a page that was fetched and parsed. *)
Definition scrape_course (soup : course_soup) (course_url university_id : string)
  : Course.t :=
  let course_name :=
    match h1 soup with
    | Some heading => clean_text (Some heading)
    | None => "N/A"
    end in
  let badges := extract_badges (badge_divs soup) in
  let highlights := extract_highlights (highlight_divs soup) in
  let level := normalize_level (dict_get_default highlights "study level" "N/A") course_url in
  let discipline :=
    clean_text
      (py_or (highlights !! "main subject")
         (py_or (badges !! "main subject area")
            (Some (guess_discipline course_name course_url)))) in
  let duration := clean_text (py_or (badges !! "programme duration") (badges !! "duration")) in
  let fees := clean_text (py_or (badges !! "tuition fee/year") (badges !! "tuition fee")) in
  let eligibility := clean_text (Some (extract_eligibility soup)) in
  {| Course.university_id := university_id;
     Course.course_name := course_name;
     Course.level := level;
     Course.discipline := smart_title_case discipline;
     Course.duration := duration;
     Course.fees := fees;
     Course.eligibility := eligibility |}.

(** ** Identifiers: [f"U{idx:03d}"] and [f"C{i + 1:04d}"] *)

(** [str(n)]: the decimal digits of [n], most significant first. *)
Definition decimal (n : nat) : string :=
  NilEmpty.string_of_uint (Nat.to_uint n).

Fixpoint str_repeat (c : ascii) (n : nat) : string :=
  match n with
  | 0 => ""
  | S n' => String c (str_repeat c n')
  end.

(** [f"{n:0{width}d}"] *)
Definition format_0d (width n : nat) : string :=
  let digits := decimal n in
  str_repeat "0" (width - str_len digits) +:+ digits.

Definition university_id_of (idx : nat) : string := "U" +:+ format_0d 3 idx.
Definition course_id_of (i : nat) : string := "C" +:+ format_0d 4 (i + 1).

(** ** Tables (lines 435-474) *)

Module University.
Record t := {
  university_id : string;
  university_name : string;
  country : string;
  city : string;
  website : string
}.
End University.

(** A row of the Courses data frame: the scraped course with its
    [course_id] column. *)
Module CourseRow.
Record t := { course_id : string; course : Course.t }.
End CourseRow.

(** [df.drop_duplicates(subset=..., keep="first")], the subset read by [key];
    [seen] holds the keys of the rows already kept. *)
Fixpoint drop_duplicates_go {A K : Type} `{EqDecision K} (key : A → K)
    (seen : list K) (rows : list A) : list A :=
  match rows with
  | [] => []
  | row :: rest =>
      if bool_decide (key row ∈ seen) then drop_duplicates_go key seen rest
      else row :: drop_duplicates_go key (key row :: seen) rest
  end.

Definition drop_duplicates {A K : Type} `{EqDecision K} (key : A → K)
    (rows : list A) : list A :=
  drop_duplicates_go key [] rows.

(** Lines 440-445, on one row. *)
Definition clean_university_row (u : University.t) : University.t :=
  let website := clean_text (Some (University.website u)) in
  {| University.university_id := clean_text (Some (University.university_id u));
     University.university_name := clean_text (Some (University.university_name u));
     University.country := smart_title_case (clean_text (Some (University.country u)));
     University.city := smart_title_case (clean_text (Some (University.city u)));
     University.website := if startswith website "http" then website else "N/A" |}.

Definition university_key (u : University.t) : string * string * string :=
  (University.university_name u, University.country u, University.city u).

Definition clean_universities (universities : list University.t)
  : list University.t :=
  match universities with
  | [] => []
  | _ => drop_duplicates university_key (map clean_university_row universities)
  end.

(** Lines 456-459, on one row. *)
Definition clean_course_row (c : Course.t) : Course.t :=
  {| Course.university_id := clean_text (Some (Course.university_id c));
     Course.course_name := clean_text (Some (Course.course_name c));
     Course.level := clean_text (Some (Course.level c));
     Course.discipline := smart_title_case (clean_text (Some (Course.discipline c)));
     Course.duration := clean_text (Some (Course.duration c));
     Course.fees := clean_text (Some (Course.fees c));
     Course.eligibility := clean_text (Some (Course.eligibility c)) |}.

Definition course_key (c : Course.t) : string * string * string :=
  (Course.university_id c, Course.course_name c, Course.level c).

(** The [course_id] column: [C0001], [C0002], ... in row order. *)
Definition number_courses (rows : list Course.t) : list CourseRow.t :=
  imap (λ i c, {| CourseRow.course_id := course_id_of i; CourseRow.course := c |}) rows.

Definition clean_courses (courses : list Course.t) : list CourseRow.t :=
  match courses with
  | [] => []
  | _ => number_courses (drop_duplicates course_key (map clean_course_row courses))
  end.

(** ** [main] (lines 483-580) *)

(** What the run meets on the network.  For a target: the university page
    of Source A, parsed, if it could be fetched; the page of Source B,
    parsed, if it could be fetched; and, for each program URL, what
    [scrape_course] meets. *)

Inductive course_fetch :=
  | Raises                         (* scrape_course raises *)
  | NoHtml                         (* fetch_html gives None: scrape_course returns None *)
  | Html (soup : course_soup).

Record target := {
  slug : string;
  university_html : option topuni_soup;
  wiki_html : option wiki_soup;
  course_html : string → course_fetch
}.

(** Lines 505-507 together with the website of line 503: the field-wise
    merge of the two partial records. *)
Definition reconcile (primary : string * string * string)
    (secondary : string * string * string * string)
  : string * string * string * string :=
  let '(topuni_name, topuni_city, topuni_country) := primary in
  let '(wiki_name, wiki_city, wiki_country, website) := secondary in
  let university_name := if negb (String.eqb topuni_name "N/A") then topuni_name else wiki_name in
  let city := if negb (String.eqb topuni_city "N/A") then topuni_city else wiki_city in
  let country := if negb (String.eqb topuni_country "N/A") then topuni_country else wiki_country in
  (university_name, city, country, website).

(** Lines 508 and 514-520. *)
Definition university_record (university_id : string)
    (merged : string * string * string * string) : University.t :=
  let '(university_name, city, country, website) := merged in
  {| University.university_id := university_id;
     University.university_name := clean_text (Some university_name);
     University.country := smart_title_case country;
     University.city := smart_title_case city;
     University.website := clean_text (Some website) |}.

Definition dedupe_key_of (c : Course.t) : string * string * string :=
  (lower (Course.university_id c), lower (Course.course_name c), lower (Course.level c)).

Record run_state := {
  universities : list University.t;
  courses : list Course.t;
  global_course_keys : gset (string * string * string)
}.

(** Lines 527-552: the loop over the program links of one university. *)
Fixpoint course_loop (fetch : string → course_fetch) (university_id : string)
    (program_links : list string) (collected : nat) (st : run_state) : run_state :=
  match program_links with
  | [] => st
  | program_url :: rest =>
      if MIN_COURSES_PER_UNIVERSITY <=? collected then st
      else
        match fetch program_url with
        | Raises => course_loop fetch university_id rest collected st
        | NoHtml => course_loop fetch university_id rest collected st
        | Html soup =>
            let course := scrape_course soup program_url university_id in
            let dedupe_key := dedupe_key_of course in
            if bool_decide (dedupe_key ∈ global_course_keys st)
            then course_loop fetch university_id rest collected st
            else
              course_loop fetch university_id rest (collected + 1)
                {| universities := universities st;
                   courses := courses st ++ [course];
                   global_course_keys := global_course_keys st ∪ {[dedupe_key]} |}
        end
  end.

(** Lines 491-557: one iteration of the loop over the targets. *)
Definition target_step (st : run_state) (idx : nat) (tg : target) : run_state :=
  let university_id := university_id_of idx in
  match university_html tg with
  | None => st
  | Some page =>
      let merged :=
        reconcile (extract_university_meta_from_topuniversities page)
          (extract_website_from_wikipedia (wiki_html tg)) in
      let normalized_country := smart_title_case (merged.1.2) in
      if negb (String.eqb normalized_country TARGET_COUNTRY) then st
      else
        let st :=
          {| universities := universities st ++ [university_record university_id merged];
             courses := courses st;
             global_course_keys := global_course_keys st |} in
        let program_links := extract_program_links (anchors page) (slug tg) in
        course_loop (course_html tg) university_id program_links 0 st
  end.

(** [enumerate(UNIVERSITY_TARGETS, start=idx)] *)
Fixpoint targets_loop (idx : nat) (targets : list target) (st : run_state)
  : run_state :=
  match targets with
  | [] => st
  | tg :: rest => targets_loop (S idx) rest (target_step st idx tg)
  end.

(** Lines 570-573: the referential-integrity filter and the final
    renumbering. *)
Definition finalize_courses (universities_df : list University.t)
    (courses_df : list CourseRow.t) : list CourseRow.t :=
  let valid_university_ids := map University.university_id universities_df in
  number_courses
    (map CourseRow.course
       (List.filter
          (λ r, str_in (Course.university_id (CourseRow.course r)) valid_university_ids)
          courses_df)).

(** The workbook handed to [export_to_excel]: the Universities sheet and the
    Courses sheet. *)
Definition workbook : Type := list University.t * list CourseRow.t.

(** Lines 559-575.  [None]: the run returns without creating the file. *)
Definition assemble (universities : list University.t) (courses : list Course.t)
  : option workbook :=
  let universities_df := clean_universities universities in
  let courses_df := clean_courses courses in
  match universities_df, courses_df with
  | [], _ => None
  | _, [] => None
  | _, _ => Some (universities_df, finalize_courses universities_df courses_df)
  end.

Definition main (targets : list target) : option workbook :=
  let st := targets_loop 1 targets
              {| universities := []; courses := []; global_course_keys := ∅ |} in
  assemble (universities st) (courses st).

(** ** Vocabulary of the statements *)

(** A token: a non-empty string without whitespace, the shape of every element
    of [s.split()]. *)
Definition token (w : string) : Prop :=
  w ≠ "" ∧ str_existsb Char.is_space w = false.

(** What one badge element writes, if it has both sub-elements: the key and
    the value stored under it. *)
Definition badge_binding (badge : badge_div) : option (string * string) :=
  match badge_title badge, badge_value badge with
  | Some title_text, Some value_text =>
      let title := clean_text (Some title_text) in
      Some (lower title, badge_stored_value title (clean_text (Some value_text)))
  | _, _ => None
  end.

(** The key and the value a highlight block carries, if it has both
    sub-elements. *)
Definition highlight_binding (block : highlight_div) : option (string * string) :=
  match highlight_key block, highlight_value block with
  | Some key_text, Some value_text =>
      Some (lower (clean_text (Some key_text)), clean_text (Some value_text))
  | _, _ => None
  end.

(** The value of the first binding of [k] in a list of bindings, and of the
    last one. *)
Fixpoint first_bound (k : string) (bs : list (string * string)) : option string :=
  match bs with
  | [] => None
  | (k', v) :: rest => if String.eqb k' k then Some v else first_bound k rest
  end.

Definition last_bound (k : string) (bs : list (string * string)) : option string :=
  first_bound k (rev bs).

(** The bindings of a highlight region that [extract_highlights] may write:
    those whose value is not the sentinel. *)
Definition writable (kv : string * string) : bool :=
  negb (String.eqb kv.2 "N/A").

(** The reading of the highlight policy that ignores the sentinel guard: of
    two blocks carrying the same key, the first one's value is in the map. *)
Definition highlights_first_occurrence_wins : Prop :=
  ∀ (h1 h2 : highlight_div) (k v1 v2 : string),
    highlight_binding h1 = Some (k, v1) →
    highlight_binding h2 = Some (k, v2) →
    extract_highlights [h1; h2] !! k = Some v1.

(** The substring table of the level rule, in priority order: the keywords
    looked for in the study-level text, and the level they stand for. *)
Definition level_keywords : list (list string * string) :=
  [ (["undergraduate"; "bachelor"], "Bachelor");
    (["postgraduate"; "master"], "Master");
    (["phd"; "doctoral"], "PhD");
    (["diploma"], "Diploma");
    (["certificate"], "Certificate");
    (["mba"], "MBA") ].

(** The level of the first row of the table one of whose keywords occurs in
    [value]. *)
Definition level_from_text (value : string) : option string :=
  match List.find (λ row, existsb (λ k, contains k value) row.1) level_keywords with
  | Some row => Some row.2
  | None => None
  end.

(** A program link of the given university whose tier segment is [segment]. *)
Definition program_url (slug segment rest : string) : string :=
  BASE_URL +:+ "/universities/" +:+ slug +:+ "/" +:+ segment +:+ "/" +:+ rest.

(** The comma-separated segments of a location cell, citation markers
    removed, each cleaned. *)
Definition location_segments (cell : string) : list string :=
  map (λ p, clean_text (Some p)) (split_on "," (re_sub_brackets cell)).

(** Coordinate noise: a segment with a digit or a lone compass letter.  A
    blank segment is cleaned to the sentinel, whose "N" is a lone compass
    letter. *)
Definition noise_segment (seg : string) : bool :=
  has_digit seg || has_lone_compass seg.

(** The location rule read to the letter: only the noise segments are
    dropped, the first surviving segment is the city and the last one the
    country, as they stand. *)
Definition location_by_position (cell : string) : string * string :=
  match List.filter (λ seg, negb (noise_segment seg)) (location_segments cell) with
  | [] => ("N/A", "N/A")
  | [only] => (only, "N/A")
  | first :: rest => (first, List.last rest "")
  end.

(** The number a string of decimal digits denotes. *)
Definition parse_nat (s : string) : option nat :=
  option_map Nat.of_uint (NilEmpty.uint_of_string s).

(** The country the retention test of a target compares with
    [TARGET_COUNTRY]: the merged country, passed through
    [smart_title_case]; [None] when the university page could not be
    fetched. *)
Definition normalized_country_of (tg : target) : option string :=
  match university_html tg with
  | Some page =>
      let merged :=
        reconcile (extract_university_meta_from_topuniversities page)
          (extract_website_from_wikipedia (wiki_html tg)) in
      Some (smart_title_case (merged.1.2))
  | None => None
  end.

Definition retained (tg : target) : bool :=
  match normalized_country_of tg with
  | Some normalized_country => String.eqb normalized_country TARGET_COUNTRY
  | None => false
  end.

(** The identifiers of the retained targets, numbered from [idx]. *)
Fixpoint retained_ids (idx : nat) (targets : list target) : list string :=
  match targets with
  | [] => []
  | tg :: rest =>
      (if retained tg then [university_id_of idx] else [])
      ++ retained_ids (S idx) rest
  end.

(** ** Sample runs *)

Definition physics_page : course_soup :=
  {| h1 := Some "MSc  Physics";
     badge_divs :=
       [ {| badge_title := Some "Programme Duration"; badge_value := Some "24 Months Programme Duration" |};
         {| badge_title := Some "Tuition Fee/year"; badge_value := Some "30,000 INR" |} ];
     highlight_divs :=
       [ {| highlight_key := Some "Study Level"; highlight_value := Some "Masters" |};
         {| highlight_key := Some "Main Subject"; highlight_value := Some "physics and astronomy" |} ];
     entry_divs := [ {| entry_label := Some "Bachelor GPA"; entry_value := Some "3.0+" |} ];
     headings := [] |}.

Definition history_page : course_soup :=
  {| h1 := Some "BA History";
     badge_divs := [];
     highlight_divs := [];
     entry_divs := [];
     headings := [ {| heading_text := "Admission"; heading_next := Some "Class XII pass." |} ] |}.

Definition no_fetch (url : string) : course_fetch := NoHtml.

Definition hyderabad_fetch (url : string) : course_fetch :=
  if String.eqb url "https://www.topuniversities.com/universities/university-hyderabad/masters/msc-physics"
  then Html physics_page
  else if String.eqb url "https://www.topuniversities.com/universities/university-hyderabad/undergrad/ba-history"
  then Html history_page
  else NoHtml.

Definition osmania_fetch (url : string) : course_fetch :=
  if String.eqb url "https://www.topuniversities.com/universities/osmania-university/masters/msc-physics"
  then Html physics_page
  else Raises.

Definition osmania_wiki : wiki_soup :=
  {| firstHeading := Some "Osmania University";
     infobox :=
       Some [ {| row_th := Some "Motto"; row_td := Some {| td_text := "Tamaso ma jyotirgamaya"; td_href := None |} |};
              {| row_th := Some "Location";
                 row_td := Some {| td_text := "Hyderabad, Telangana, India[1]"; td_href := None |} |};
              {| row_th := Some "Website";
                 row_td := Some {| td_text := "osmania.ac.in"; td_href := Some "//www.osmania.ac.in" |} |} ] |}.

Definition hyderabad_profile : ld_object :=
  {| ld_type := Some "CollegeOrUniversity";
     ld_name := Some "University of  Hyderabad";
     ld_main_entity := Some None;
     ld_department :=
       Some [ None;
              Some {| addressLocality := Some "hyderabad"; addressCountry := Some "india" |} ] |}.

Definition oxford_profile : ld_object :=
  {| ld_type := Some "CollegeOrUniversity";
     ld_name := Some "University of Oxford";
     ld_main_entity := Some None;
     ld_department :=
       Some [ Some {| addressLocality := Some "Oxford"; addressCountry := Some "England" |} ] |}.

(** Five targets: one resolved by Source A; one served the same profile
    again; one resolved by Source B; one resolved to another country; one
    whose page cannot be fetched. *)
Definition sample_targets : list target :=
  [ {| slug := "university-hyderabad";
       university_html :=
         Some {| jsonld_objects := [None; Some hyderabad_profile];
                 topuni_h1 := Some "University of Hyderabad";
                 anchors := [ "/universities/university-hyderabad/masters/msc-physics?ref=1";
                              "/rankings";
                              "/universities/university-hyderabad/masters/msc-physics";
                              "/universities/university-hyderabad/undergrad/ba-history";
                              "/universities/university-hyderabad/phd/phd-chemistry" ] |};
       wiki_html := None;
       course_html := hyderabad_fetch |};
    {| slug := "uoh";
       university_html :=
         Some {| jsonld_objects := [None; Some hyderabad_profile];
                 topuni_h1 := Some "University of Hyderabad";
                 anchors := [ "/universities/uoh/undergrad/ba-history" ] |};
       wiki_html := None;
       course_html := λ _, Html history_page |};
    {| slug := "osmania-university";
       university_html :=
         Some {| jsonld_objects := [];
                 topuni_h1 := None;
                 anchors := [ "/universities/osmania-university/masters/msc-physics";
                              "/universities/osmania-university/mba/mba" ] |};
       wiki_html := Some osmania_wiki;
       course_html := osmania_fetch |};
    {| slug := "university-oxford";
       university_html :=
         Some {| jsonld_objects := [Some oxford_profile];
                 topuni_h1 := None;
                 anchors := [ "/universities/university-oxford/masters/msc-physics" ] |};
       wiki_html := None;
       course_html := λ _, Html physics_page |};
    {| slug := "university-madras";
       university_html := None;
       wiki_html := None;
       course_html := no_fetch |} ].

(** Six targets, the first two served the same profile by Source A; only
    the second one lists a course. *)
Definition duplicate_profile_targets : list target :=
  [ {| slug := "university-hyderabad";
       university_html :=
         Some {| jsonld_objects := [None; Some hyderabad_profile];
                 topuni_h1 := Some "University of Hyderabad";
                 anchors := [] |};
       wiki_html := None;
       course_html := no_fetch |};
    {| slug := "osmania-university";
       university_html :=
         Some {| jsonld_objects := [None; Some hyderabad_profile];
                 topuni_h1 := Some "University of Hyderabad";
                 anchors := [ "/universities/osmania-university/masters/msc-physics" ] |};
       wiki_html := None;
       course_html := osmania_fetch |};
    {| slug := "university-madras"; university_html := None; wiki_html := None;
       course_html := no_fetch |};
    {| slug := "national-institute-technology-warangal"; university_html := None;
       wiki_html := None; course_html := no_fetch |};
    {| slug := "national-institute-technology-calicut"; university_html := None;
       wiki_html := None; course_html := no_fetch |};
    {| slug := "indian-institute-technology-mandi"; university_html := None;
       wiki_html := None; course_html := no_fetch |} ].

(** Normal forms of the fields of a partial record: a name or a website is
    a fixed point of [clean_text], a city or a country a fixed point of
    [smart_title_case].  Every value the two extractors return is of this
    kind, the sentinel included. *)
Definition cleaned (s : string) : Prop := clean_text (Some s) = s.
Definition title_cased (s : string) : Prop := smart_title_case s = s.


(** ** [fetch_html] (lines 123-134) *)

(** What [session.get] meets at one attempt: a response with its status code
    and text, or a [requests.RequestException]. *)
Inductive response :=
  | Response (status_code : nat) (text : string)
  | RequestException.

(** The loop over [range(attempt, retries + 1)], [remaining] attempts being
    left; [get] gives what the request of each attempt meets.  The result
    comes with the attempts after which the back-off sleep
    [time.sleep(0.6 * attempt)] ran, in order. *)
Fixpoint fetch_loop (get : nat → response) (attempt remaining : nat)
  : option string * list nat :=
  match remaining with
  | 0 => (None, [])
  | S remaining' =>
      match get attempt with
      | Response status_code text =>
          if status_code =? 200 then (Some text, [])
          else
            let '(html, slept) := fetch_loop get (S attempt) remaining' in
            (html, attempt :: slept)
      | RequestException =>
          let '(html, slept) := fetch_loop get (S attempt) remaining' in
          (html, attempt :: slept)
      end
  end.

Definition fetch_html (get : nat → response) (retries : nat)
  : option string * list nat :=
  fetch_loop get 1 retries.

(** An attempt that ends the loop: status 200. *)
Definition succeeds (r : response) : bool :=
  match r with
  | Response status_code _ => status_code =? 200
  | RequestException => false
  end.

(** ** Vocabulary of the further properties *)

(** The values a course level can take. *)
Definition LEVELS : list string :=
  ["Bachelor"; "Master"; "PhD"; "MBA"; "Diploma"; "Certificate"; "Foundation"; "N/A"].


(** A course as [main] collects it: scraped from some page, for the
    university of some target. *)
Definition collected_course (c : Course.t) : Prop :=
  ∃ soup url idx, c = scrape_course soup url (university_id_of idx).

(** A bracketed citation marker occurs in [s]: an opening bracket with a
    closing bracket somewhere after it. *)
Fixpoint has_marker (s : string) : bool :=
  match s with
  | "" => false
  | String c r => (Char.eqb c "[" && has_close r) || has_marker r
  end.


(** The fields of a record as [main] appends it. *)
Definition intake_record (u : University.t) : Prop :=
  University.country u = TARGET_COUNTRY
  ∧ cleaned (University.university_name u)
  ∧ title_cased (University.city u)
  ∧ cleaned (University.website u).
(** * Properties *)

(** ** Strings *)

Lemma app_nil_l_str (s : string) : "" +:+ s = s.
Proof. reflexivity. Qed.

Lemma app_cons_str (c : ascii) (s t : string) :
  String c s +:+ t = String c (s +:+ t).
Proof. reflexivity. Qed.

Lemma app_nil_r_str (s : string) : s +:+ "" = s.
Proof. induction s as [|c s IH]; [done|]. by rewrite app_cons_str, IH. Qed.


Lemma str_eqb_eq (a b : string) : String.eqb a b = true ↔ a = b.
Proof. apply String.eqb_eq. Qed.

Lemma str_eqb_neq (a b : string) : String.eqb a b = false ↔ a ≠ b.
Proof. apply String.eqb_neq. Qed.

Lemma token_cons (c : ascii) (w : string) :
  token (String c w) ↔ Char.is_space c = false ∧ (w = "" ∨ token w).
Proof.
  unfold token. simpl. rewrite orb_false_iff. split.
  - intros [_ [Hc Hw]]. split; [done|]. destruct w; [by left|right]. done.
  - intros [Hc [-> | [_ Hw]]]; done.
Qed.

Lemma str_in_In (x : string) (xs : list string) : str_in x xs = true ↔ In x xs.
Proof.
  unfold str_in. rewrite existsb_exists. split.
  - intros (y & Hy & E). apply str_eqb_eq in E. by subst.
  - intros H. exists x. split; [done|]. apply String.eqb_refl.
Qed.

Lemma join_cons_char (c : ascii) (w : string) (ws : list string) :
  join " " (String c w :: ws) = String c (join " " (w :: ws)).
Proof. destruct ws; reflexivity. Qed.

Lemma join_cons_cons (sep w w' : string) (ws : list string) :
  join sep (w :: w' :: ws) = w +:+ sep +:+ join sep (w' :: ws).
Proof. reflexivity. Qed.

Lemma starts_word_split (s : string) :
  starts_word s = true → split_ws s ≠ [].
Proof.
  destruct s as [|c r]; [done|]. simpl.
  destruct (Char.is_space c); [done|]. intros _.
  destruct (starts_word r); [destruct (split_ws r)|]; done.
Qed.

Lemma split_ws_tokens (s : string) : Forall token (split_ws s).
Proof.
  induction s as [|c r IH]; [constructor|]. simpl.
  destruct (Char.is_space c) eqn:Hc; [done|].
  destruct (starts_word r) eqn:Hr.
  - destruct (split_ws r) as [|w ws].
    + constructor; [|constructor]. apply token_cons; auto.
    + inversion IH; subst. constructor; [|done].
      apply token_cons; auto.
  - constructor; [|done]. apply token_cons; auto.
Qed.

Lemma join_tokens_empty (ws : list string) :
  Forall token ws → is_empty (join " " ws) = true → ws = [].
Proof.
  intros Hws. destruct Hws as [|w ws [Hw _] _]; [done|].
  destruct w as [|c w]; [done|]. by rewrite join_cons_char.
Qed.

Lemma join_split_empty (s : string) :
  is_empty (join " " (split_ws s)) = bool_decide (split_ws s = []).
Proof.
  pose proof (split_ws_tokens s) as H.
  destruct (split_ws s) as [|w ws] eqn:E; [done|].
  destruct (is_empty (join " " (w :: ws))) eqn:Hj; [|done].
  by apply join_tokens_empty in Hj.
Qed.

(** ** [clean_text] *)

Lemma lstrip_sub_ws (b : bool) (s : string) :
  lstrip (sub_ws_go b s) = sub_ws_go true s.
Proof.
  revert b. induction s as [|c r IH]; intros b; [done|]. simpl.
  destruct (Char.is_space c) eqn:Hc.
  - destruct b; [apply IH|]. unfold lstrip. simpl. apply IH.
  - unfold lstrip. simpl. by rewrite Hc.
Qed.

Lemma rstrip_cons_word (c : ascii) (s : string) :
  Char.is_space c = false → rstrip (String c s) = String c (rstrip s).
Proof. intros Hc. unfold rstrip. simpl. by rewrite Hc. Qed.

Lemma rstrip_cons_space (s : string) :
  rstrip (String " " s) = if is_empty (rstrip s) then "" else String " " (rstrip s).
Proof. reflexivity. Qed.

Lemma rstrip_sub_ws (s : string) :
  rstrip (sub_ws_go true s) = join " " (split_ws s)
  ∧ rstrip (sub_ws_go false s) =
      if starts_word s then join " " (split_ws s)
      else if bool_decide (split_ws s = []) then ""
           else " " +:+ join " " (split_ws s).
Proof.
  induction s as [|c r [IHt IHf]]; [done|]. simpl.
  destruct (Char.is_space c) eqn:Hc; simpl.
  - split; [done|]. rewrite rstrip_cons_space, IHt, join_split_empty.
    by destruct (bool_decide (split_ws r = [])).
  - rewrite !rstrip_cons_word, IHf by done.
    destruct (starts_word r) eqn:Hr.
    + pose proof (starts_word_split r Hr) as Hne.
      destruct (split_ws r) as [|w ws]; [done|].
      by rewrite join_cons_char.
    + destruct (split_ws r) as [|w ws]; [done|].
      by rewrite bool_decide_eq_false_2.
Qed.

Lemma strip_re_sub_ws (s : string) :
  strip (re_sub_ws s) = join " " (split_ws s).
Proof.
  unfold strip, strip_by, re_sub_ws.
  change (lstrip_by Char.is_space) with lstrip.
  change (rstrip_by Char.is_space) with rstrip.
  rewrite lstrip_sub_ws. apply rstrip_sub_ws.
Qed.

(** [clean_text] in terms of the words of its argument. *)
Lemma clean_text_words (s : string) :
  clean_text (Some s) =
    match split_ws s with
    | [] => "N/A"
    | ws => join " " ws
    end.
Proof.
  unfold clean_text. rewrite strip_re_sub_ws, join_split_empty.
  by destruct (split_ws s).
Qed.

Lemma split_ws_app_token (w rest : string) :
  token w → starts_word rest = false →
  split_ws (w +:+ rest) = w :: split_ws rest.
Proof.
  intros Hw Hrest. induction w as [|c w IH]; [by destruct Hw|].
  apply token_cons in Hw as [Hc Hw]. rewrite app_cons_str. simpl. rewrite Hc.
  destruct Hw as [-> | Hw].
  - rewrite app_nil_l_str, Hrest. done.
  - rewrite IH by done.
    assert (starts_word (w +:+ rest) = true) as ->; [|done].
    destruct w as [|d w]; [by destruct Hw|].
    apply token_cons in Hw as [Hd _]. rewrite app_cons_str. simpl. by rewrite Hd.
Qed.

Lemma split_ws_join (ws : list string) :
  Forall token ws → split_ws (join " " ws) = ws.
Proof.
  induction 1 as [|w ws Hw Hws IH]; [done|].
  destruct ws as [|w' ws].
  - simpl. rewrite <- (app_nil_r_str w) at 1. by rewrite split_ws_app_token.
  - rewrite join_cons_cons, split_ws_app_token by done.
    f_equal. exact IH.
Qed.

Lemma split_ws_all_space (s : string) :
  str_forallb Char.is_space s = true → split_ws s = [].
Proof.
  induction s as [|c r IH]; [done|]. simpl.
  intros [Hc Hr]%andb_true_iff. rewrite Hc. auto.
Qed.

Lemma split_ws_not_all_space (s : string) :
  str_forallb Char.is_space s = false → split_ws s ≠ [].
Proof.
  induction s as [|c r IH]; [done|]. simpl.
  destruct (Char.is_space c); simpl; [done|]. intros _.
  destruct (starts_word r); [destruct (split_ws r)|]; done.
Qed.

Lemma clean_text_fixed (s : string) :
  clean_text (Some (clean_text (Some s))) = clean_text (Some s).
Proof.
  rewrite (clean_text_words s).
  pose proof (split_ws_tokens s) as Htok.
  destruct (split_ws s) as [|w ws] eqn:E; [done|].
  rewrite clean_text_words, split_ws_join by done. done.
Qed.

Lemma clean_text_nonempty (x : option string) : clean_text x ≠ "".
Proof.
  destruct x as [s|]; [|done]. unfold clean_text. simpl.
  destruct (strip (re_sub_ws s)); done.
Qed.

(** C9.  [clean_text] is defined on every input, [None] included, and never
    returns the empty string; it is idempotent; [None] and the texts made
    of whitespace only (the empty text among them) give the sentinel; every
    other text gives its words joined by single spaces, that is, the text
    with every whitespace run collapsed to one space and both ends
    trimmed. *)
Theorem clean_text_total_idempotent :
  (∀ x : option string, ∃ r : string, clean_text x = r ∧ r ≠ "")
  ∧ (∀ x : option string, clean_text (Some (clean_text x)) = clean_text x)
  ∧ clean_text None = SENTINEL
  ∧ (∀ s : string,
       clean_text (Some s) =
         if str_forallb Char.is_space s then SENTINEL
         else join " " (split_ws s)).
Proof.
  split; [|split; [|split]].
  - intros x. exists (clean_text x). split; [done|apply clean_text_nonempty].
  - intros [s|]; [apply clean_text_fixed|done].
  - done.
  - intros s. rewrite clean_text_words.
    destruct (str_forallb Char.is_space s) eqn:Hs.
    + by rewrite split_ws_all_space.
    + pose proof (split_ws_not_all_space s Hs).
      by destruct (split_ws s).
Qed.

(** ** Prefixes and suffixes *)

Lemma str_len_app (a b : string) : str_len (a +:+ b) = str_len a + str_len b.
Proof. induction a as [|c a IH]; [done|]. rewrite app_cons_str. simpl. by rewrite IH. Qed.

Lemma str_take_drop (n : nat) (s : string) : str_take n s +:+ str_drop n s = s.
Proof.
  revert n. induction s as [|c s IH]; intros [|n]; try done.
  simpl. by rewrite app_cons_str, IH.
Qed.

Lemma str_drop_app (a b : string) : str_drop (str_len a) (a +:+ b) = b.
Proof. induction a as [|c a IH]; [by destruct b|]. by rewrite app_cons_str. Qed.

Lemma str_len_map (f : ascii → ascii) (s : string) : str_len (str_map f s) = str_len s.
Proof. induction s as [|c s IH]; [done|]. simpl. by rewrite IH. Qed.

Lemma str_len_zero (s : string) : str_len s = 0 ↔ s = "".
Proof. destruct s; simpl; split; (done || lia). Qed.

(** [endswith] decides "is a suffix of". *)
Lemma endswith_spec (s p : string) :
  endswith s p = true ↔ ∃ q, s = q +:+ p.
Proof.
  unfold endswith. rewrite andb_true_iff, Nat.leb_le, str_eqb_eq. split.
  - intros [_ Hd]. exists (str_take (str_len s - str_len p) s).
    pose proof (str_take_drop (str_len s - str_len p) s) as H.
    rewrite Hd in H. by symmetry.
  - intros [q ->]. rewrite str_len_app. split; [lia|].
    replace (str_len q + str_len p - str_len p) with (str_len q) by lia.
    apply str_drop_app.
Qed.

Lemma endswith_false (s p : string) :
  endswith s p = false ↔ ¬ ∃ q, s = q +:+ p.
Proof. rewrite <- endswith_spec. by destruct (endswith s p). Qed.

(** ** Badges and highlights *)

Lemma badge_step_binding (badges : gmap string string) (badge : badge_div) :
  badge_step badges badge =
    match badge_binding badge with
    | Some (k, v) => <[k := v]> badges
    | None => badges
    end.
Proof.
  unfold badge_step, badge_binding.
  by destruct (badge_title badge), (badge_value badge).
Qed.

Lemma first_bound_app (k : string) (xs ys : list (string * string)) :
  first_bound k (xs ++ ys) =
    match first_bound k xs with
    | Some v => Some v
    | None => first_bound k ys
    end.
Proof.
  induction xs as [|[k' v] xs IH]; [done|]. simpl.
  by destruct (String.eqb k' k).
Qed.

Lemma omap_cons {A B : Type} (f : A → option B) (x : A) (l : list A) :
  omap f (x :: l) =
    match f x with
    | Some y => y :: omap f l
    | None => omap f l
    end.
Proof. reflexivity. Qed.

(** The loop of [extract_badges] from any starting map: the last binding of
    a key, or else what the map held. *)
Lemma extract_badges_from (badges : gmap string string) (divs : list badge_div)
    (k : string) :
  foldl badge_step badges divs !! k =
    match last_bound k (omap badge_binding divs) with
    | Some v => Some v
    | None => badges !! k
    end.
Proof.
  revert badges. induction divs as [|d divs IH]; intros badges; [done|].
  cbn [foldl]. rewrite IH, badge_step_binding, omap_cons. unfold last_bound.
  destruct (badge_binding d) as [[k' v]|]; [|done].
  cbn [rev]. rewrite first_bound_app. cbn [first_bound].
  destruct (first_bound k (rev (omap badge_binding divs))); [done|].
  destruct (String.eqb k' k) eqn:E.
  - apply str_eqb_eq in E as ->. by rewrite lookup_insert_eq.
  - apply str_eqb_neq in E. by rewrite lookup_insert_ne.
Qed.

Lemma extract_badges_last (divs : list badge_div) (k : string) :
  extract_badges divs !! k = last_bound k (omap badge_binding divs).
Proof.
  unfold extract_badges. rewrite extract_badges_from, lookup_empty.
  by destruct (last_bound k (omap badge_binding divs)).
Qed.

Lemma clean_text_key_nonempty (s : string) :
  is_empty (lower (clean_text (Some s))) = false.
Proof.
  pose proof (clean_text_nonempty (Some s)) as H.
  by destruct (clean_text (Some s)).
Qed.

Lemma highlight_step_binding (highlights : gmap string string)
    (block : highlight_div) :
  highlight_step highlights block =
    match highlight_binding block with
    | Some (k, v) =>
        if writable (k, v) && bool_decide (highlights !! k = None)
        then <[k := v]> highlights else highlights
    | None => highlights
    end.
Proof.
  unfold highlight_step, highlight_binding, writable.
  destruct (highlight_key block) as [kt|], (highlight_value block) as [vt|]; try done.
  rewrite clean_text_key_nonempty. cbn [negb andb snd].
  destruct (highlights !! lower (clean_text (Some kt))) as [x|] eqn:E.
  - rewrite bool_decide_eq_true_2 by eauto. cbn [negb andb].
    by rewrite bool_decide_eq_false_2, andb_false_r.
  - rewrite bool_decide_eq_false_2 by (intros [? ?]; done). cbn [negb andb].
    rewrite bool_decide_eq_true_2 by done. by rewrite andb_true_r.
Qed.

(** The loop of [extract_highlights] from any starting map: what the map
    held, or else the first writable binding of the key. *)
Lemma extract_highlights_from (highlights : gmap string string)
    (divs : list highlight_div) (k : string) :
  foldl highlight_step highlights divs !! k =
    match highlights !! k with
    | Some v => Some v
    | None => first_bound k (List.filter writable (omap highlight_binding divs))
    end.
Proof.
  revert highlights. induction divs as [|d divs IH]; intros highlights.
  { simpl. by destruct (highlights !! k). }
  cbn [foldl]. rewrite IH, highlight_step_binding, omap_cons.
  destruct (highlight_binding d) as [[k' v]|]; [|done]. cbn [List.filter].
  destruct (writable (k', v)) eqn:Hw; cbn [andb first_bound]; [|done].
  destruct (String.eqb k' k) eqn:E.
  - apply str_eqb_eq in E as ->.
    destruct (highlights !! k) as [x|] eqn:Hk.
    + rewrite bool_decide_eq_false_2 by done. by rewrite Hk.
    + rewrite bool_decide_eq_true_2 by done. by rewrite lookup_insert_eq.
  - apply str_eqb_neq in E. case_bool_decide; [|done].
    by rewrite lookup_insert_ne.
Qed.

Lemma extract_highlights_first (divs : list highlight_div) (k : string) :
  extract_highlights divs !! k =
    first_bound k (List.filter writable (omap highlight_binding divs)).
Proof. unfold extract_highlights. by rewrite extract_highlights_from, lookup_empty. Qed.

Lemma slice_to_neg_take (s : string) (n : nat) :
  n ≠ 0 → slice_to_neg s n = str_take (str_len s - n) s.
Proof. by destruct n. Qed.

Lemma extract_badges_single (title_text value_text : string) :
  extract_badges [{| badge_title := Some title_text; badge_value := Some value_text |}]
    !! lower (clean_text (Some title_text))
  = Some (badge_stored_value (clean_text (Some title_text))
            (clean_text (Some value_text))).
Proof. unfold extract_badges. cbn [foldl badge_step badge_title badge_value]. apply lookup_insert_eq. Qed.

(** C1 (as amended).  A badge whose title is "Duration" and whose displayed
    value is "Duration: 2 Years" is stored under the key "duration" with its
    value unchanged, "Duration: 2 Years": the title is stripped only when the
    value ends with it, compared case-insensitively.  In general, for a badge
    with a title and a value, the value stored under the lower-cased title
    is the cleaned value itself whenever that value does not end with the
    title, whether or not it starts with it; and when it does end with the
    title (neither being the sentinel), it is the cleaned text of what
    precedes that suffix; a sentinel title or value leaves the value as it
    is. *)
Theorem badge_title_suffix_strip :
  extract_badges
    [{| badge_title := Some "Duration"; badge_value := Some "Duration: 2 Years" |}]
    !! "duration" = Some "Duration: 2 Years"
  ∧ ∀ title_text value_text : string,
      let title := clean_text (Some title_text) in
      let value := clean_text (Some value_text) in
      let stored :=
        extract_badges
          [{| badge_title := Some title_text; badge_value := Some value_text |}]
          !! lower title in
      ((¬ ∃ q, lower value = q +:+ lower title) → stored = Some value)
      ∧ (value = "N/A" ∨ title = "N/A" → stored = Some value)
      ∧ ((∃ q, lower value = q +:+ lower title) →
         value ≠ "N/A" → title ≠ "N/A" →
         stored =
           Some (clean_text (Some (str_take (str_len value - str_len title) value)))).
Proof.
  split; [by vm_compute|].
  intros title_text value_text. cbv zeta.
  rewrite extract_badges_single. unfold badge_stored_value.
  split; [|split].
  - intros Hno%endswith_false. by rewrite Hno, andb_false_r.
  - intros [Hv | Ht].
    + by rewrite Hv.
    + rewrite Ht. cbn [String.eqb negb andb]. by rewrite andb_false_r.
  - intros Hsuf%endswith_spec Hv%str_eqb_neq Ht%str_eqb_neq.
    rewrite Hsuf, Hv, Ht. cbn [negb andb].
    rewrite slice_to_neg_take; [done|].
    rewrite str_len_zero. apply clean_text_nonempty.
Qed.

Lemma badge_title_suffix_strip_witness :
  (∃ q, lower (clean_text (Some "2 Years  Duration")) = q +:+ lower (clean_text (Some "duration")))
  ∧ clean_text (Some "2 Years  Duration") ≠ "N/A"
  ∧ clean_text (Some "duration") ≠ "N/A"
  ∧ extract_badges
      [{| badge_title := Some "duration"; badge_value := Some "2 Years  Duration" |}]
      !! "duration" = Some "2 Years".
Proof.
  assert (∃ q, lower (clean_text (Some "2 Years  Duration"))
               = q +:+ lower (clean_text (Some "duration"))) as Hsuf.
  { by exists "2 years ". }
  split; [exact Hsuf|]. split; [done|]. split; [done|].
  exact (proj2 (proj2 (proj2 badge_title_suffix_strip "duration" "2 Years  Duration"))
           Hsuf ltac:(done) ltac:(done)).
Defined.

(** C1, as stated, fails: the value stored for the badge "Duration" /
    "Duration: 2 Years" is not "2 Years". *)
Lemma badge_duration_prefix_counterexample :
  extract_badges
    [{| badge_title := Some "Duration"; badge_value := Some "Duration: 2 Years" |}]
    !! "duration" ≠ Some "2 Years".
Proof. by vm_compute. Qed.

(** C8 (as amended).  The badge map holds, for every key, the value of the
    last badge element carrying that (lower-cased) title; the highlight map
    holds, for every key, the value of the first highlight block carrying
    that key whose value is not the sentinel, a block with a sentinel value
    never being written.  In particular, of two badges with the same title
    the second one's value is stored; of two highlight blocks with the same
    key the first one's value is stored when it is not the sentinel, and
    otherwise the second one's (if that is not the sentinel either). *)
Theorem badge_last_highlight_first_writable :
  (∀ (divs : list badge_div) (k : string),
     extract_badges divs !! k = last_bound k (omap badge_binding divs))
  ∧ (∀ (divs : list highlight_div) (k : string),
       extract_highlights divs !! k =
         first_bound k (List.filter writable (omap highlight_binding divs)))
  ∧ (∀ (b1 b2 : badge_div) (k v1 v2 : string),
       badge_binding b1 = Some (k, v1) →
       badge_binding b2 = Some (k, v2) →
       extract_badges [b1; b2] !! k = Some v2)
  ∧ (∀ (h1 h2 : highlight_div) (k v1 v2 : string),
       highlight_binding h1 = Some (k, v1) →
       highlight_binding h2 = Some (k, v2) →
       extract_highlights [h1; h2] !! k =
         if writable (k, v1) then Some v1
         else if writable (k, v2) then Some v2 else None).
Proof.
  split; [exact extract_badges_last|]. split; [exact extract_highlights_first|].
  split.
  - intros b1 b2 k v1 v2 H1 H2.
    rewrite extract_badges_last, !omap_cons, H1, H2. unfold last_bound.
    cbn [rev app first_bound omap list_omap]. by rewrite String.eqb_refl.
  - intros h1 h2 k v1 v2 H1 H2.
    rewrite extract_highlights_first, !omap_cons, H1, H2.
    cbn [omap list_omap List.filter].
    destruct (writable (k, v1)), (writable (k, v2));
      cbn [first_bound]; by rewrite ?String.eqb_refl.
Qed.

Lemma badge_last_highlight_first_writable_witness :
  let b1 := {| badge_title := Some "Duration"; badge_value := Some "1 Year" |} in
  let b2 := {| badge_title := Some "DURATION"; badge_value := Some "2 Years" |} in
  let h1 := {| highlight_key := Some "Study Level"; highlight_value := Some "Masters" |} in
  let h2 := {| highlight_key := Some "study level"; highlight_value := Some "PhD" |} in
  (badge_binding b1 = Some ("duration", "1 Year")
   ∧ badge_binding b2 = Some ("duration", "2 Years")
   ∧ extract_badges [b1; b2] !! "duration" = Some "2 Years")
  ∧ (highlight_binding h1 = Some ("study level", "Masters")
     ∧ highlight_binding h2 = Some ("study level", "PhD")
     ∧ extract_highlights [h1; h2] !! "study level" = Some "Masters").
Proof.
  intros b1 b2 h1 h2.
  pose proof badge_last_highlight_first_writable as (_ & _ & Hb & Hh).
  split.
  - split; [reflexivity|]. split; [reflexivity|].
    exact (Hb b1 b2 "duration" "1 Year" "2 Years" eq_refl eq_refl).
  - split; [reflexivity|]. split; [reflexivity|].
    exact (Hh h1 h2 "study level" "Masters" "PhD" eq_refl eq_refl).
Defined.

(** C8, as stated, fails for highlights: when the first of two blocks with
    the same key has an empty value, the map holds the second one's. *)
Lemma highlights_first_occurrence_counterexample :
  ¬ highlights_first_occurrence_wins.
Proof.
  intros H.
  specialize (H {| highlight_key := Some "Study Level"; highlight_value := Some "" |}
                {| highlight_key := Some "Study Level"; highlight_value := Some "Masters" |}
                "study level" "N/A" "Masters" eq_refl eq_refl).
  vm_compute in H. discriminate H.
Qed.

Lemma endswith_refl (s : string) : endswith s s = true.
Proof. apply endswith_spec. by exists "". Qed.

Lemma badge_value_equal_title (t : string) :
  badge_stored_value (clean_text (Some t)) (clean_text (Some t)) = "N/A".
Proof.
  unfold badge_stored_value.
  destruct (String.eqb (clean_text (Some t)) "N/A") eqn:E.
  - cbn [negb andb]. by apply str_eqb_eq.
  - cbn [negb andb]. rewrite endswith_refl, slice_to_neg_take, Nat.sub_diag.
    + by destruct (clean_text (Some t)).
    + rewrite str_len_zero. apply clean_text_nonempty.
Qed.

(** C10.  When the highlights of a course page have no "main subject" entry
    and its badges bind "main subject area" to the sentinel "N/A", the
    discipline of the scraped course is the sentinel, whatever the course
    name and the URL are: the sentinel is a non-empty string, so the [or]
    chain stops at it and [guess_discipline] is not used.  Such a binding
    arises from any badge whose value text equals its title text. *)
Theorem sentinel_badge_stops_discipline_chain :
  (∀ (soup : course_soup) (course_url university_id : string),
     extract_highlights (highlight_divs soup) !! "main subject" = None →
     extract_badges (badge_divs soup) !! "main subject area" = Some "N/A" →
     Course.discipline (scrape_course soup course_url university_id) = "N/A")
  ∧ (∀ t : string,
       extract_badges [{| badge_title := Some t; badge_value := Some t |}]
         !! lower (clean_text (Some t)) = Some "N/A").
Proof.
  split.
  - intros soup url uid Hh Hb. unfold scrape_course.
    cbn [Course.discipline]. rewrite Hh, Hb. reflexivity.
  - intros t. by rewrite extract_badges_single, badge_value_equal_title.
Qed.

Lemma sentinel_badge_stops_discipline_chain_witness :
  let soup :=
    {| h1 := Some "BSc Physics";
       badge_divs := [{| badge_title := Some "Main Subject Area";
                         badge_value := Some "Main Subject Area" |}];
       highlight_divs := [{| highlight_key := Some "Study Level";
                             highlight_value := Some "Undergraduate" |}];
       entry_divs := [];
       headings := [] |} in
  let url := "https://www.topuniversities.com/universities/osmania-university/undergrad/bsc-physics" in
  extract_highlights (highlight_divs soup) !! "main subject" = None
  ∧ extract_badges (badge_divs soup) !! "main subject area" = Some "N/A"
  ∧ guess_discipline "BSc Physics" url = "Physics"
  ∧ Course.discipline (scrape_course soup url "U002") = "N/A".
Proof.
  intros soup url.
  assert (extract_highlights (highlight_divs soup) !! "main subject" = None) as Hh
    by reflexivity.
  assert (extract_badges (badge_divs soup) !! "main subject area" = Some "N/A") as Hb
    by reflexivity.
  split; [exact Hh|]. split; [exact Hb|]. split; [reflexivity|].
  exact (proj1 sentinel_badge_stops_discipline_chain soup url "U002" Hh Hb).
Defined.

(** ** Level resolution *)










Lemma normalize_level_table (raw_level course_url : string) :
  normalize_level raw_level course_url =
    match level_from_text (lower (clean_text (Some raw_level))) with
    | Some found => found
    | None => dict_get_default LEVEL_BY_SEGMENT (url_level_segment course_url) "N/A"
    end.
Proof.
  unfold normalize_level, level_from_text, level_keywords.
  cbn [List.find existsb fst snd].
  generalize (lower (clean_text (Some raw_level))) as value. intros value.
  destruct (contains "undergraduate" value); [done|].
  destruct (contains "bachelor" value); [done|].
  destruct (contains "postgraduate" value); [done|].
  destruct (contains "master" value); [done|].
  destruct (contains "phd" value); [done|].
  destruct (contains "doctoral" value); [done|].
  destruct (contains "diploma" value); [done|].
  destruct (contains "certificate" value); [done|].
  destruct (contains "mba" value); done.
Qed.



(** First match wins: a text naming two tiers gets the earlier row's level. *)
Example normalize_level_first_match :
  normalize_level "Postgraduate Diploma" "" = "Master"
  ∧ normalize_level "MBA (Master of Business Administration)" "" = "Master"
  ∧ normalize_level "Executive MBA" "" = "MBA"
  ∧ normalize_level "Foundation" (program_url "osmania-university" "foundation" "x") = "Foundation"
  ∧ normalize_level "n/a" "https://www.topuniversities.com/universities/osmania-university" = "N/A".
Proof. repeat split; reflexivity. Qed.





(** ** Program links *)








(** ** Source B: the location cell *)

Lemma keep_part_spec (seg : string) :
  keep_part seg = negb (noise_segment seg).
Proof.
  unfold keep_part, noise_segment. rewrite negb_orb, <- andb_assoc.
  destruct (String.eqb seg "N/A") eqn:E; [|done].
  apply str_eqb_eq in E as ->. reflexivity.
Qed.

Lemma last_app_one {A : Type} (l : list A) (y d : A) : List.last (l ++ [y]) d = y.
Proof. induction l as [|x l IH]; [done|]. simpl. rewrite IH. by destruct l. Qed.

Lemma parse_location_survivors (cell : string) :
  parse_location cell =
    match List.filter keep_part (location_segments cell) with
    | [] => ("N/A", "N/A")
    | [only] => (smart_title_case only, "N/A")
    | first :: rest => (smart_title_case first, smart_title_case (List.last rest ""))
    end.
Proof.
  unfold parse_location. destruct (String.eqb cell "N/A") eqn:E.
  - apply str_eqb_eq in E as ->. reflexivity.
  - fold (location_segments cell).
    destruct (List.filter keep_part (location_segments cell)) as [|x [|y l]]; done.
Qed.

(** C6 (as amended).  The location cell "Hyderabad, Telangana, India[1]"
    gives city "Hyderabad" and country "India".  In general the parser
    strips the bracketed citation markers, splits on commas, cleans each
    segment, and drops only the segments containing a digit or a lone
    compass letter; the city is the first surviving segment passed through
    titleCase and the country is the last one passed through titleCase, the
    segments in between being discarded whatever they contain; when exactly
    one segment survives it gives the city, through titleCase, and the
    country is the sentinel; when none does, both are the sentinel. *)
Theorem parse_location_first_last :
  parse_location "Hyderabad, Telangana, India[1]" = ("Hyderabad", "India")
  ∧ ∀ (cell : string) (survivors : list string),
      survivors =
        List.filter (λ seg, negb (noise_segment seg)) (location_segments cell) →
      (survivors = [] → parse_location cell = ("N/A", "N/A"))
      ∧ (∀ only, survivors = [only] →
           parse_location cell = (smart_title_case only, "N/A"))
      ∧ (∀ first middle last, survivors = first :: middle ++ [last] →
           parse_location cell = (smart_title_case first, smart_title_case last)).
Proof.
  split; [by vm_compute|].
  intros cell survivors Hs.
  rewrite (filter_ext _ keep_part) in Hs by (intros seg; by rewrite keep_part_spec).
  rewrite parse_location_survivors, <- Hs.
  split; [by intros ->|]. split; [by intros only ->|].
  intros first middle last ->.
  destruct middle as [|m middle]; [done|].
  change ((m :: middle) ++ [last]) with (m :: (middle ++ [last])).
  cbv iota. f_equal. f_equal.
  change (m :: middle ++ [last]) with ((m :: middle) ++ [last]).
  apply last_app_one.
Qed.

Lemma parse_location_first_last_witness :
  List.filter (λ seg, negb (noise_segment seg))
    (location_segments "78.3 E, Gachibowli , , hyderabad, telangana, 500046, N, india [1][a]")
  = "Gachibowli" :: ["hyderabad"; "telangana"] ++ ["india"]
  ∧ parse_location "78.3 E, Gachibowli , , hyderabad, telangana, 500046, N, india [1][a]"
    = ("Gachibowli", "India").
Proof.
  split; [by vm_compute|].
  pose proof (proj2 parse_location_first_last
                "78.3 E, Gachibowli , , hyderabad, telangana, 500046, N, india [1][a]"
                _ eq_refl) as (_ & _ & H).
  apply (H "Gachibowli" ["hyderabad"; "telangana"] "india"). by vm_compute.
Defined.

(** C6, as stated, fails: the city and the country are not the surviving
    segments as they stand but what titleCase makes of them, which may even
    be another name. *)
Lemma location_by_position_counterexample :
  parse_location "Oxford, England" = ("Oxford", "United Kingdom")
  ∧ location_by_position "Oxford, England" = ("Oxford", "England")
  ∧ parse_location "Oxford, England" ≠ location_by_position "Oxford, England"
  ∧ parse_location "hyderabad, india" ≠ location_by_position "hyderabad, india".
Proof. repeat split; by vm_compute. Qed.

(** ** Identifiers *)

Lemma digit_not_space (c : ascii) :
  Char.is_digit c = true → Char.is_space c = false.
Proof. destruct c as [[] [] [] [] [] [] [] []]; by vm_compute. Qed.

Lemma digits_no_space (s : string) :
  str_forallb Char.is_digit s = true → str_existsb Char.is_space s = false.
Proof.
  induction s as [|c s IH]; [done|]. simpl.
  intros [Hc Hs]%andb_true_iff. by rewrite (digit_not_space c Hc), IH.
Qed.

Lemma string_of_uint_digits (d : Decimal.uint) :
  str_forallb Char.is_digit (NilEmpty.string_of_uint d) = true.
Proof. induction d; simpl; try done. Qed.

Lemma str_forallb_app (p : ascii → bool) (a b : string) :
  str_forallb p (a +:+ b) = str_forallb p a && str_forallb p b.
Proof.
  induction a as [|c a IH]; [done|]. rewrite app_cons_str. simpl.
  by rewrite IH, andb_assoc.
Qed.

Lemma str_repeat_forallb (p : ascii → bool) (c : ascii) (n : nat) :
  p c = true → str_forallb p (str_repeat c n) = true.
Proof. intros Hc. induction n as [|n IH]; [done|]. simpl. by rewrite Hc, IH. Qed.

Lemma format_0d_digits (width n : nat) :
  str_forallb Char.is_digit (format_0d width n) = true.
Proof.
  unfold format_0d, decimal.
  by rewrite str_forallb_app, str_repeat_forallb, string_of_uint_digits.
Qed.

Lemma parse_nat_zeros (k : nat) (s : string) :
  parse_nat (str_repeat "0" k +:+ s) = parse_nat s.
Proof.
  induction k as [|k IH]; [done|]. simpl. rewrite app_cons_str.
  rewrite <- IH. unfold parse_nat. simpl.
  by destruct (NilEmpty.uint_of_string (str_repeat "0" k +:+ s)).
Qed.

Lemma parse_nat_format_0d (width n : nat) :
  parse_nat (format_0d width n) = Some n.
Proof.
  unfold format_0d, decimal. rewrite parse_nat_zeros. unfold parse_nat.
  rewrite NilEmpty.usu. simpl. by rewrite DecimalNat.Unsigned.of_to.
Qed.

Lemma format_0d_inj (width n m : nat) :
  format_0d width n = format_0d width m → n = m.
Proof.
  intros H. apply (f_equal parse_nat) in H.
  rewrite !parse_nat_format_0d in H. congruence.
Qed.

Lemma university_id_of_inj (i j : nat) :
  university_id_of i = university_id_of j → i = j.
Proof. unfold university_id_of. intros [= H]. by apply format_0d_inj in H. Qed.

Lemma format_0d_width (width n : nat) : width ≤ str_len (format_0d width n).
Proof.
  unfold format_0d. rewrite str_len_app.
  assert (∀ k, str_len (str_repeat "0" k) = k) as ->; [|lia].
  induction k; simpl; congruence.
Qed.

Lemma clean_text_token (w : string) : token w → clean_text (Some w) = w.
Proof.
  intros Hw. rewrite clean_text_words.
  pose proof (split_ws_join [w] (Forall_cons_2 _ _ _ Hw (Forall_nil_2 _))) as H.
  simpl in H. by rewrite H.
Qed.

Lemma university_id_token (idx : nat) : token (university_id_of idx).
Proof.
  unfold university_id_of. change ("U" +:+ format_0d 3 idx) with (String "U" (format_0d 3 idx)).
  apply token_cons. split; [done|].
  destruct (format_0d 3 idx) eqn:E; [by left|right]. rewrite <- E.
  split; [by rewrite E|]. apply digits_no_space, format_0d_digits.
Qed.

Lemma clean_university_id (idx : nat) :
  clean_text (Some (university_id_of idx)) = university_id_of idx.
Proof. apply clean_text_token, university_id_token. Qed.

(** ** Tables *)

Lemma drop_duplicates_go_In {A K : Type} `{EqDecision K} (key : A → K)
    (seen : list K) (rows : list A) (x : A) :
  In x (drop_duplicates_go key seen rows) → In x rows.
Proof.
  revert seen. induction rows as [|row rows IH]; intros seen; [done|].
  simpl. case_bool_decide.
  - intros Hx. right. by apply (IH seen).
  - intros [-> | Hx]; [by left|]. right. by apply (IH (key row :: seen)).
Qed.

Lemma drop_duplicates_cons {A K : Type} `{EqDecision K} (key : A → K)
    (row : A) (rows : list A) :
  drop_duplicates key (row :: rows) =
    row :: drop_duplicates_go key [key row] rows.
Proof.
  unfold drop_duplicates. cbn [drop_duplicates_go].
  rewrite bool_decide_eq_false_2; [done|]. apply not_elem_of_nil.
Qed.

Lemma clean_universities_In (us : list University.t) (u' : University.t) :
  In u' (clean_universities us) → ∃ u, In u us ∧ u' = clean_university_row u.
Proof.
  destruct us as [|u0 us]; [done|]. unfold clean_universities, drop_duplicates.
  intros H%drop_duplicates_go_In. apply in_map_iff in H as (u & <- & Hu). eauto.
Qed.

Lemma clean_universities_nil (us : list University.t) :
  clean_universities us = [] ↔ us = [].
Proof.
  split; [|by intros ->]. destruct us as [|u us]; [done|].
  unfold clean_universities. cbn [map]. by rewrite drop_duplicates_cons.
Qed.

Lemma number_courses_In (rows : list Course.t) (r : CourseRow.t) :
  In r (number_courses rows) → In (CourseRow.course r) rows.
Proof.
  rewrite <- !list_elem_of_In. unfold number_courses.
  intros (i & c & -> & Hc)%elem_of_lookup_imap. simpl.
  apply list_elem_of_lookup. eauto.
Qed.

Lemma number_courses_lookup (rows : list Course.t) (i : nat) (r : CourseRow.t) :
  number_courses rows !! i = Some r → CourseRow.course_id r = course_id_of i.
Proof.
  unfold number_courses. rewrite list_lookup_imap.
  destruct (rows !! i); [|done]. by intros [= <-].
Qed.

Lemma clean_courses_nil (cs : list Course.t) :
  clean_courses cs = [] ↔ cs = [].
Proof.
  split; [|by intros ->]. destruct cs as [|c cs]; [done|].
  unfold clean_courses. cbn [map]. by rewrite drop_duplicates_cons.
Qed.

Lemma finalize_courses_In (U : list University.t) (cdf : list CourseRow.t)
    (r : CourseRow.t) :
  In r (finalize_courses U cdf) →
  (∃ r0, In r0 cdf ∧ CourseRow.course r = CourseRow.course r0)
  ∧ ∃ u, In u U
         ∧ University.university_id u = Course.university_id (CourseRow.course r).
Proof.
  unfold finalize_courses. intros H%number_courses_In.
  apply in_map_iff in H as (r0 & Hr0 & H). apply filter_In in H as [Hin Hid].
  split; [eauto|]. rewrite <- Hr0.
  apply str_in_In, in_map_iff in Hid as (u & Hu & HuU). eauto.
Qed.

Lemma assemble_Some (us : list University.t) (cs : list Course.t) (w : workbook) :
  assemble us cs = Some w →
  us ≠ [] ∧ cs ≠ []
  ∧ w = (clean_universities us,
         finalize_courses (clean_universities us) (clean_courses cs)).
Proof.
  unfold assemble.
  destruct (clean_universities us) as [|u U] eqn:EU; [done|].
  destruct (clean_courses cs) as [|r R] eqn:EC; [done|].
  intros [= <-]. split; [|split; [|done]].
  - intros ->. done.
  - intros ->. done.
Qed.

Lemma assemble_None (us : list University.t) (cs : list Course.t) :
  assemble us cs = None ↔ us = [] ∨ cs = [].
Proof.
  unfold assemble.
  pose proof (clean_universities_nil us) as HU.
  pose proof (clean_courses_nil cs) as HC.
  destruct (clean_universities us) as [|u U].
  { split; [|done]. intros _. left. by apply HU. }
  destruct (clean_courses cs) as [|r R].
  { split; [|done]. intros _. right. by apply HC. }
  split; [done|]. intros [H | H]; [apply HU in H|apply HC in H]; done.
Qed.

(** ** The loops of [main] *)

Lemma course_loop_universities (fetch : string → course_fetch) (uid : string)
    (links : list string) (collected : nat) (st : run_state) :
  universities (course_loop fetch uid links collected st) = universities st.
Proof.
  revert collected st. induction links as [|url links IH]; intros n st; [done|].
  cbn [course_loop]. destruct (MIN_COURSES_PER_UNIVERSITY <=? n); [done|].
  destruct (fetch url); try apply IH.
  case_bool_decide; [apply IH|]. by rewrite IH.
Qed.

Lemma course_loop_courses (fetch : string → course_fetch) (uid : string)
    (links : list string) (collected : nat) (st : run_state) (c : Course.t) :
  In c (courses (course_loop fetch uid links collected st)) →
  In c (courses st) ∨ Course.university_id c = uid.
Proof.
  revert collected st. induction links as [|url links IH]; intros n st; [by left|].
  cbn [course_loop]. destruct (MIN_COURSES_PER_UNIVERSITY <=? n); [by left|].
  destruct (fetch url) as [| |soup]; try apply IH.
  case_bool_decide as Hkey; [apply IH|].
  intros [Hc | Hc]%IH; [|by right]. simpl in Hc.
  apply in_app_iff in Hc as [Hc | [<- | []]]; [by left|by right].
Qed.

Lemma target_step_universities (st : run_state) (idx : nat) (tg : target) :
  map University.university_id (universities (target_step st idx tg)) =
    map University.university_id (universities st)
    ++ (if retained tg then [university_id_of idx] else []).
Proof.
  unfold target_step, retained, normalized_country_of.
  destruct (university_html tg) as [page|]; [|by rewrite app_nil_r].
  cbv zeta.
  destruct (String.eqb _ TARGET_COUNTRY); cbn [negb]; [|by rewrite app_nil_r].
  rewrite course_loop_universities. cbn [universities]. rewrite map_app.
  f_equal. unfold university_record.
  by destruct (reconcile _ _) as [[[? ?] ?] ?].
Qed.

Lemma target_step_courses (st : run_state) (idx : nat) (tg : target) (c : Course.t) :
  In c (courses (target_step st idx tg)) →
  In c (courses st)
  ∨ (retained tg = true ∧ Course.university_id c = university_id_of idx).
Proof.
  unfold target_step, retained, normalized_country_of.
  destruct (university_html tg) as [page|]; [|by left]. cbv zeta.
  destruct (String.eqb _ TARGET_COUNTRY); cbn [negb]; [|by left].
  intros [H | H]%course_loop_courses; [by left|by right].
Qed.

Lemma targets_loop_universities (idx : nat) (targets : list target) (st : run_state) :
  map University.university_id (universities (targets_loop idx targets st)) =
    map University.university_id (universities st) ++ retained_ids idx targets.
Proof.
  revert idx st. induction targets as [|tg targets IH]; intros idx st.
  { by rewrite app_nil_r. }
  simpl. by rewrite IH, target_step_universities, <- app_assoc.
Qed.

Lemma targets_loop_courses (idx : nat) (targets : list target) (st : run_state)
    (c : Course.t) :
  In c (courses (targets_loop idx targets st)) →
  In c (courses st) ∨ In (Course.university_id c) (retained_ids idx targets).
Proof.
  revert idx st. induction targets as [|tg targets IH]; intros idx st; [by left|].
  simpl. intros [H | H]%IH.
  - apply target_step_courses in H as [H | [Hr Hid]]; [by left|right].
    rewrite Hr. left. done.
  - right. apply in_app_iff. by right.
Qed.

Lemma retained_ids_In (idx : nat) (targets : list target) (id : string) :
  In id (retained_ids idx targets) ↔
  ∃ i tg, targets !! i = Some tg ∧ retained tg = true
          ∧ id = university_id_of (idx + i).
Proof.
  revert idx. induction targets as [|tg targets IH]; intros idx.
  { split; [done|]. by intros (i & tg & ? & _). }
  simpl. rewrite in_app_iff, IH. split.
  - intros [H | (i & tg' & Hi & Hr & ->)].
    + destruct (retained tg) eqn:Hr; [|done]. destruct H as [<- | []].
      exists 0, tg. by rewrite Nat.add_0_r.
    + exists (S i), tg'. by rewrite Nat.add_succ_r.
  - intros ([|i] & tg' & Hi & Hr & ->).
    + left. simpl in Hi. injection Hi as ->. rewrite Hr, Nat.add_0_r. by left.
    + right. exists i, tg'. by rewrite Nat.add_succ_r.
Qed.

(** ** The published tables *)

Lemma main_Some (targets : list target) (w : workbook) :
  main targets = Some w →
  ∃ st, st = targets_loop 1 targets
               {| universities := []; courses := []; global_course_keys := ∅ |}
        ∧ universities st ≠ [] ∧ courses st ≠ []
        ∧ w = (clean_universities (universities st),
               finalize_courses (clean_universities (universities st))
                 (clean_courses (courses st))).
Proof.
  unfold main. intros (HU & HC & ->)%assemble_Some. eexists. split; [done|]. done.
Qed.

Lemma course_id_of_shape (i : nat) :
  ∃ digits, course_id_of i = "C" +:+ digits
            ∧ parse_nat digits = Some (i + 1) ∧ 4 ≤ str_len digits.
Proof.
  exists (format_0d 4 (i + 1)). split; [done|].
  split; [apply parse_nat_format_0d|apply format_0d_width].
Qed.

(** C3.  When the run writes its two tables, every row of the Courses table
    has a university_id that is the university_id of a row of the
    Universities table, and the row at position i (from 0) of the Courses
    table has the identifier "C" followed by the decimal digits of i + 1,
    zero-padded to four: C0001, C0002, ... in row order with no gaps.  The
    Courses table consists of the rows of the provisional table (the one
    numbered after the course dedup pass) whose university is in the
    Universities table, in the same order, numbered afresh. *)
Theorem published_tables_integrity (targets : list target)
    (U : list University.t) (C : list CourseRow.t) :
  main targets = Some (U, C) →
  (∀ r, r ∈ C →
     ∃ u, u ∈ U
          ∧ University.university_id u = Course.university_id (CourseRow.course r))
  ∧ (∀ i r, C !! i = Some r →
       CourseRow.course_id r = course_id_of i
       ∧ ∃ digits, CourseRow.course_id r = "C" +:+ digits
                   ∧ parse_nat digits = Some (i + 1) ∧ 4 ≤ str_len digits)
  ∧ (∃ provisional : list CourseRow.t,
       (∀ i r, provisional !! i = Some r → CourseRow.course_id r = course_id_of i)
       ∧ map CourseRow.course C =
           List.filter
             (λ c, str_in (Course.university_id c) (map University.university_id U))
             (map CourseRow.course provisional)).
Proof.
  intros (st & Hst & HU & HC & [= -> ->])%main_Some.
  split; [|split].
  - intros r Hr%list_elem_of_In. apply finalize_courses_In in Hr as [_ (u & Hu & Hid)].
    exists u. by rewrite list_elem_of_In.
  - intros i r Hi. unfold finalize_courses in Hi.
    apply number_courses_lookup in Hi. split; [done|].
    rewrite Hi. apply course_id_of_shape.
  - exists (clean_courses (courses st)). split.
    + intros i r. destruct (courses st) as [|c cs]; [done|].
      unfold clean_courses. apply number_courses_lookup.
    + unfold finalize_courses, number_courses.
      set (valid := map University.university_id _).
      generalize (clean_courses (courses st)) as rows. intros rows.
      set (kept := map CourseRow.course (List.filter _ rows)).
      assert (map CourseRow.course (imap (λ i c, {| CourseRow.course_id := course_id_of i;
                                                    CourseRow.course := c |}) kept) = kept) as ->.
      { generalize 0 as k. generalize kept as l.
        assert (∀ (l : list Course.t) (f : nat → string),
                  map CourseRow.course
                    (imap (λ i c, {| CourseRow.course_id := f i; CourseRow.course := c |}) l)
                  = l) as Hgen.
        { induction l as [|x l IH]; intros f; [done|]. simpl. f_equal.
          apply (IH (f ∘ S)). }
        intros l _. apply Hgen. }
      subst kept. induction rows as [|r rows IH]; [done|]. simpl.
      destruct (str_in _ valid); simpl; by rewrite IH.
Qed.

Lemma published_tables_integrity_witness :
  ∃ U C,
    main sample_targets = Some (U, C)
    ∧ map University.university_id U = ["U001"; "U003"]
    ∧ map (λ r, (CourseRow.course_id r, Course.university_id (CourseRow.course r))) C
      = [("C0001", "U001"); ("C0002", "U001"); ("C0003", "U003")]
    ∧ (∀ r, r ∈ C →
         ∃ u, u ∈ U
              ∧ University.university_id u = Course.university_id (CourseRow.course r)).
Proof.
  destruct (main sample_targets) as [[U C]|] eqn:E; [|by vm_compute in E].
  exists U, C. split; [done|].
  pose proof (published_tables_integrity sample_targets U C E) as [H _].
  vm_compute in E. injection E as <- <-.
  split; [reflexivity|]. split; [reflexivity|]. exact H.
Defined.

Lemma retained_target (targets : list target) (i j : nat) (tg : target) :
  targets !! i = Some tg →
  In (university_id_of (S j)) (retained_ids 1 targets) →
  j = i →
  normalized_country_of tg = Some TARGET_COUNTRY.
Proof.
  intros Htg (k & tg' & Hk & Hret & Hid)%retained_ids_In ->.
  apply university_id_of_inj in Hid. injection Hid as <-.
  rewrite Htg in Hk. injection Hk as <-.
  unfold retained in Hret. destruct (normalized_country_of tg) as [nc|]; [|done].
  by apply str_eqb_eq in Hret as ->.
Qed.

(** C5.  The record of a target is in the final Universities table only if
    the merged country of that target, passed once more through titleCase,
    is exactly the configured target country; a target whose normalized
    country differs (or whose page could not be fetched) has no row in the
    Universities table and no row in the Courses table, and no course was
    even collected for it. *)
Theorem country_filter_is_hard (targets : list target)
    (U : list University.t) (C : list CourseRow.t) (i : nat) (tg : target) :
  main targets = Some (U, C) →
  targets !! i = Some tg →
  ((∃ u, u ∈ U ∧ University.university_id u = university_id_of (S i)) →
   normalized_country_of tg = Some TARGET_COUNTRY)
  ∧ (normalized_country_of tg ≠ Some TARGET_COUNTRY →
     (∀ u, u ∈ U → University.university_id u ≠ university_id_of (S i))
     ∧ (∀ r, r ∈ C →
          Course.university_id (CourseRow.course r) ≠ university_id_of (S i))
     ∧ (∀ c, c ∈ courses
                   (targets_loop 1 targets
                      {| universities := []; courses := []; global_course_keys := ∅ |}) →
          Course.university_id c ≠ university_id_of (S i))).
Proof.
  intros (st & Hst & _ & _ & [= -> ->])%main_Some Htg.
  assert (∀ u, In u (clean_universities (universities st)) →
               University.university_id u = university_id_of (S i) →
               normalized_country_of tg = Some TARGET_COUNTRY) as Hrow.
  { intros u (u0 & Hu0 & ->)%clean_universities_In Hid.
    assert (In (University.university_id u0) (retained_ids 1 targets)) as Hin.
    { pose proof (targets_loop_universities 1 targets
                    {| universities := []; courses := []; global_course_keys := ∅ |}) as H.
      rewrite <- Hst in H. simpl in H. rewrite <- H. by apply in_map. }
    cbn [clean_university_row University.university_id] in Hid.
    assert (∃ j, University.university_id u0 = university_id_of j) as [j Hj].
    { apply retained_ids_In in Hin as (k & ? & _ & _ & ->). eauto. }
    rewrite Hj, clean_university_id in Hid. apply university_id_of_inj in Hid.
    subst j. rewrite Hj in Hin. by apply (retained_target targets i i tg). }
  split.
  - intros (u & Hu%list_elem_of_In & Hid). by apply (Hrow u).
  - intros Hne. split; [|split].
    + intros u Hu%list_elem_of_In Hid. by apply Hne, (Hrow u).
    + intros r Hr%list_elem_of_In Hid.
      apply finalize_courses_In in Hr as [_ (u & Hu & Hidu)].
      apply Hne, (Hrow u); [done|]. by rewrite Hidu.
    + intros c Hc%list_elem_of_In Hid. subst st.
      apply targets_loop_courses in Hc as [[] | Hin].
      rewrite Hid in Hin. by apply Hne, (retained_target targets i i tg).
Qed.

Lemma country_filter_is_hard_witness :
  ∃ U C tg,
    main sample_targets = Some (U, C)
    ∧ sample_targets !! 3 = Some tg
    ∧ normalized_country_of tg = Some "United Kingdom"
    ∧ (∀ u, u ∈ U → University.university_id u ≠ "U004")
    ∧ (∀ r, r ∈ C → Course.university_id (CourseRow.course r) ≠ "U004").
Proof.
  destruct (main sample_targets) as [[U C]|] eqn:E; [|by vm_compute in E].
  destruct (sample_targets !! 3) as [tg|] eqn:Etg; [|by vm_compute in Etg].
  exists U, C, tg. split; [done|]. split; [done|].
  pose proof (proj2 (country_filter_is_hard sample_targets U C 3 tg E Etg)) as H.
  vm_compute in Etg. injection Etg as <-.
  split; [reflexivity|].
  destruct H as (HU & HC & _); [by vm_compute|]. split; [exact HU|exact HC].
Defined.

(** The run returns without writing exactly when no university or no course
    was collected; the test precedes the referential-integrity filter. *)
Lemma main_None (targets : list target) :
  main targets = None ↔
  let st := targets_loop 1 targets
              {| universities := []; courses := []; global_course_keys := ∅ |} in
  universities st = [] ∨ courses st = [].
Proof. unfold main. apply assemble_None. Qed.

(** C2 fails on the code: when two targets resolve to the same name, country
    and city and only the second one yields courses, the second university
    is dropped as a duplicate, its courses are then removed by the
    referential-integrity filter, and the workbook is written with an empty
    Courses sheet. *)
Theorem duplicate_profile_writes_empty_courses :
  main duplicate_profile_targets =
    Some ([ {| University.university_id := "U001";
               University.university_name := "University of Hyderabad";
               University.country := "India";
               University.city := "Hyderabad";
               University.website := "N/A" |} ],
          []).
Proof. by vm_compute. Qed.

(** ** [smart_title_case] *)

Lemma lower_char_idem (c : ascii) : Char.lower (Char.lower c) = Char.lower c.
Proof. destruct c as [[] [] [] [] [] [] [] []]; by vm_compute. Qed.

Lemma upper_char_idem (c : ascii) : Char.upper (Char.upper c) = Char.upper c.
Proof. destruct c as [[] [] [] [] [] [] [] []]; by vm_compute. Qed.

Lemma lower_upper_char (c : ascii) : Char.lower (Char.upper c) = Char.lower c.
Proof. destruct c as [[] [] [] [] [] [] [] []]; by vm_compute. Qed.

Lemma is_space_lower_char (c : ascii) : Char.is_space (Char.lower c) = Char.is_space c.
Proof. destruct c as [[] [] [] [] [] [] [] []]; by vm_compute. Qed.

Lemma is_space_upper_char (c : ascii) : Char.is_space (Char.upper c) = Char.is_space c.
Proof. destruct c as [[] [] [] [] [] [] [] []]; by vm_compute. Qed.

Lemma is_upper_lower_char (c : ascii) : Char.is_upper (Char.lower c) = false.
Proof. destruct c as [[] [] [] [] [] [] [] []]; by vm_compute. Qed.

Lemma lower_idem (s : string) : lower (lower s) = lower s.
Proof.
  induction s as [|c s IH]; [done|]. unfold lower in *. simpl.
  by rewrite lower_char_idem, IH.
Qed.

Lemma lower_no_upper (s : string) : str_existsb Char.is_upper (lower s) = false.
Proof.
  induction s as [|c s IH]; [done|]. unfold lower in *. simpl.
  by rewrite is_upper_lower_char, IH.
Qed.

Lemma lower_capitalize (w : string) : lower (capitalize w) = lower w.
Proof.
  destruct w as [|c r]; [done|]. unfold capitalize, lower. simpl.
  rewrite lower_upper_char. f_equal. apply lower_idem.
Qed.

Lemma capitalize_idem (w : string) : capitalize (capitalize w) = capitalize w.
Proof.
  destruct w as [|c r]; [done|]. unfold capitalize.
  by rewrite upper_char_idem, lower_idem.
Qed.

Lemma title_word_idem (i : nat) (w : string) :
  title_word i (title_word i w) = title_word i w.
Proof.
  destruct (isupper w && (str_len w <=? 5)) eqn:E1.
  { assert (title_word i w = w) as -> by (unfold title_word; by rewrite E1).
    unfold title_word. by rewrite E1. }
  destruct ((0 <? i) && str_in (lower w) small_words) eqn:E2.
  { assert (title_word i w = lower w) as ->
      by (unfold title_word; by rewrite E1, E2).
    unfold title_word, isupper.
    rewrite lower_no_upper, lower_idem, E2. done. }
  assert (title_word i w = capitalize w) as ->
    by (unfold title_word; by rewrite E1, E2).
  unfold title_word. rewrite lower_capitalize, E2, capitalize_idem.
  by destruct (isupper (capitalize w) && (str_len (capitalize w) <=? 5)).
Qed.

Lemma no_space_map (f : ascii → ascii) (s : string) :
  (∀ c, Char.is_space (f c) = Char.is_space c) →
  str_existsb Char.is_space (str_map f s) = str_existsb Char.is_space s.
Proof.
  intros Hf. induction s as [|c s IH]; [done|]. simpl. by rewrite Hf, IH.
Qed.

Lemma token_lower (w : string) : token w → token (lower w).
Proof.
  intros [Hne Hsp]. split; [by destruct w|].
  unfold lower. by rewrite no_space_map by apply is_space_lower_char.
Qed.

Lemma token_capitalize (w : string) : token w → token (capitalize w).
Proof.
  intros [Hne Hsp]. destruct w as [|c r]; [done|]. split; [done|].
  simpl in *. apply orb_false_iff in Hsp as [Hc Hr].
  rewrite is_space_upper_char, Hc. simpl. unfold lower.
  by rewrite no_space_map by apply is_space_lower_char.
Qed.

Lemma token_title_word (i : nat) (w : string) : token w → token (title_word i w).
Proof.
  intros Hw. unfold title_word.
  destruct (isupper w && (str_len w <=? 5)); [done|].
  destruct ((0 <? i) && str_in (lower w) small_words);
    [by apply token_lower|by apply token_capitalize].
Qed.

Lemma imap_idem {A : Type} (f : nat → A → A) (l : list A) :
  (∀ i x, f i (f i x) = f i x) → imap f (imap f l) = imap f l.
Proof.
  revert f. induction l as [|x l IH]; intros f Hf; [done|].
  rewrite !imap_cons. f_equal; [apply Hf|]. apply IH. intros i y. apply Hf.
Qed.

Lemma Forall_imap {A : Type} (P : A → Prop) (f : nat → A → A) (l : list A) :
  (∀ i x, P x → P (f i x)) → Forall P l → Forall P (imap f l).
Proof.
  revert f. induction l as [|x l IH]; intros f Hf Hl; [constructor|].
  inversion Hl; subst. rewrite imap_cons. constructor; [by apply Hf|].
  apply IH; [|done]. intros i y. apply Hf.
Qed.

Lemma clean_text_join_tokens (ws : list string) :
  ws ≠ [] → Forall token ws → clean_text (Some (join " " ws)) = join " " ws.
Proof.
  intros Hne Hws. rewrite clean_text_words, split_ws_join by done.
  by destruct ws.
Qed.

Lemma alias_values (k v : string) :
  COUNTRY_ALIASES !! k = Some v → v = "United States" ∨ v = "United Kingdom".
Proof.
  unfold COUNTRY_ALIASES.
  repeat (rewrite lookup_insert; case_decide; [intros [= <-]; auto|]).
  by rewrite lookup_empty.
Qed.

(** [smart_title_case] on a text with at least one word. *)
Lemma smart_title_case_words (text : string) :
  smart_title_case text =
    match split_ws text with
    | [] => "N/A"
    | w :: ws =>
        if String.eqb (join " " (w :: ws)) "N/A" then "N/A"
        else
          dict_get_default COUNTRY_ALIASES
            (join " " (imap title_word (w :: ws)))
            (join " " (imap title_word (w :: ws)))
    end.
Proof.
  unfold smart_title_case. rewrite clean_text_words.
  pose proof (split_ws_tokens text) as Htok.
  destruct (split_ws text) as [|w ws] eqn:E; [done|].
  destruct (String.eqb (join " " (w :: ws)) "N/A") eqn:En.
  - by apply str_eqb_eq in En.
  - by rewrite split_ws_join.
Qed.

Lemma smart_title_case_idem (text : string) :
  smart_title_case (smart_title_case text) = smart_title_case text.
Proof.
  rewrite (smart_title_case_words text).
  pose proof (split_ws_tokens text) as Htok.
  destruct (split_ws text) as [|w ws] eqn:E; [done|].
  destruct (String.eqb (join " " (w :: ws)) "N/A"); [done|].
  remember (imap title_word (w :: ws)) as ws1 eqn:E1.
  assert (Forall token ws1) as Htok1.
  { subst ws1. apply Forall_imap; [apply token_title_word|done]. }
  assert (ws1 ≠ []) as Hne1 by (subst ws1; by rewrite imap_cons).
  assert (imap title_word ws1 = ws1) as Hidem.
  { subst ws1. apply imap_idem, title_word_idem. }
  unfold dict_get_default.
  destruct (COUNTRY_ALIASES !! join " " ws1) as [v|] eqn:Ea.
  { apply alias_values in Ea as [-> | ->]; reflexivity. }
  cbn [default]. rewrite smart_title_case_words, split_ws_join by done.
  destruct ws1 as [|w1 ws1']; [done|].
  destruct (String.eqb (join " " (w1 :: ws1')) "N/A") eqn:En.
  { apply str_eqb_eq in En. by rewrite En. }
  rewrite Hidem. unfold dict_get_default. by rewrite Ea.
Qed.

Lemma clean_text_smart_title_case (text : string) :
  clean_text (Some (smart_title_case text)) = smart_title_case text.
Proof.
  rewrite smart_title_case_words.
  pose proof (split_ws_tokens text) as Htok.
  destruct (split_ws text) as [|w ws] eqn:E; [done|].
  destruct (String.eqb (join " " (w :: ws)) "N/A"); [done|]. cbv zeta.
  unfold dict_get_default.
  destruct (COUNTRY_ALIASES !! _) as [v|] eqn:Ea.
  { apply alias_values in Ea as [-> | ->]; reflexivity. }
  apply clean_text_join_tokens; [by rewrite imap_cons|].
  apply Forall_imap; [apply token_title_word|done].
Qed.

(** ** Reconciliation *)

Lemma cleaned_clean_text (x : option string) : cleaned (clean_text x).
Proof. destruct x as [s|]; [apply clean_text_fixed|done]. Qed.

Lemma title_cased_smart_title_case (s : string) : title_cased (smart_title_case s).
Proof. apply smart_title_case_idem. Qed.
















(** The record of the third sample target: Source A resolves nothing, every
    field comes from Source B. *)
Example reconcile_osmania :
  extract_website_from_wikipedia (Some osmania_wiki)
  = ("Osmania University", "Hyderabad", "India", "https://www.osmania.ac.in")
  ∧ university_record "U003"
      (reconcile ("N/A", "Secunderabad", "N/A")
         (extract_website_from_wikipedia (Some osmania_wiki))) =
      {| University.university_id := "U003";
         University.university_name := "Osmania University";
         University.country := "India";
         University.city := "Secunderabad";
         University.website := "https://www.osmania.ac.in" |}.
Proof. split; reflexivity. Qed.

(** * Further properties *)

(** ** Text normalisation *)



Lemma split_ws_token (w : string) : token w → split_ws w = [w].
Proof.
  intros Hw.
  exact (split_ws_join [w] (Forall_cons_2 _ _ _ Hw (Forall_nil_2 _))).
Qed.

(** X2.  A single word in upper case of at most five characters, which is
    not a key of the alias table, is left as it is by [smart_title_case];
    a single word of any other kind is capitalised (first character in
    upper case, the rest in lower case) before the alias lookup. *)
Theorem smart_title_case_single_word (w : string) :
  token w →
  COUNTRY_ALIASES !! w = None →
  (isupper w = true → str_len w ≤ 5 → smart_title_case w = w)
  ∧ (isupper w && (str_len w <=? 5) = false →
     w ≠ "N/A" →
     smart_title_case w =
       dict_get_default COUNTRY_ALIASES (capitalize w) (capitalize w)).
Proof.
  intros Hw Halias. rewrite smart_title_case_words, split_ws_token by done.
  cbn [join imap]. split.
  - intros Hup Hlen. destruct (String.eqb w "N/A") eqn:E.
    { by apply str_eqb_eq in E. }
    unfold title_word. rewrite Hup. apply Nat.leb_le in Hlen. rewrite Hlen.
    cbn [andb]. unfold dict_get_default. by rewrite Halias.
  - intros Hno Hne. apply str_eqb_neq in Hne. rewrite Hne.
    unfold title_word. rewrite Hno. reflexivity.
Qed.

Lemma smart_title_case_single_word_witness :
  (token "IIT" ∧ COUNTRY_ALIASES !! "IIT" = None ∧ isupper "IIT" = true
   ∧ str_len "IIT" ≤ 5 ∧ smart_title_case "IIT" = "IIT")
  ∧ (token "uSA" ∧ COUNTRY_ALIASES !! "uSA" = None
     ∧ isupper "uSA" && (str_len "uSA" <=? 5) = false
     ∧ smart_title_case "uSA" = "United States").
Proof.
  assert (token "IIT") as H1 by (by split).
  assert (token "uSA") as H2 by (by split).
  split.
  - split; [exact H1|]. split; [reflexivity|]. split; [reflexivity|].
    split; [simpl; lia|].
    exact (proj1 (smart_title_case_single_word "IIT" H1 eq_refl) eq_refl
             ltac:(simpl; lia)).
  - split; [exact H2|]. split; [reflexivity|]. split; [reflexivity|].
    exact (proj2 (smart_title_case_single_word "uSA" H2 eq_refl) eq_refl
             ltac:(done)).
Defined.

(** X3.  [clean_text] sees only the words of a text: two texts with the
    same words, however they are spaced, are cleaned to the same text, and
    cleaning a text that has a word keeps its words. *)
Theorem clean_text_whitespace_insensitive :
  (∀ s t : string,
     split_ws s = split_ws t → clean_text (Some s) = clean_text (Some t))
  ∧ (∀ s : string,
       split_ws s ≠ [] → split_ws (clean_text (Some s)) = split_ws s).
Proof.
  split.
  - intros s t Hst. by rewrite !clean_text_words, Hst.
  - intros s Hne. rewrite clean_text_words.
    pose proof (split_ws_tokens s) as Htok.
    destruct (split_ws s) as [|w ws]; [done|]. by apply split_ws_join.
Qed.

Lemma clean_text_whitespace_insensitive_witness :
  split_ws "  New   Delhi " = split_ws "New Delhi"
  ∧ clean_text (Some "  New   Delhi ") = clean_text (Some "New Delhi")
  ∧ split_ws "  New   Delhi " ≠ []
  ∧ split_ws (clean_text (Some "  New   Delhi ")) = split_ws "  New   Delhi ".
Proof.
  split; [reflexivity|].
  split; [exact (proj1 clean_text_whitespace_insensitive _ _ eq_refl)|].
  split; [done|].
  exact (proj2 clean_text_whitespace_insensitive "  New   Delhi " ltac:(done)).
Defined.

(** ** Program links and levels *)



Lemma program_link_step_NoDup (slug : string) (links : list string)
    (anchor_href : string) :
  List.NoDup links → List.NoDup (program_link_step slug links anchor_href).
Proof.
  intros Hnd. unfold program_link_step.
  destruct (String.eqb _ "N/A"); [done|].
  destruct (negb (startswith _ _)); [done|].
  destruct (length _ <? 4); [done|].
  destruct (negb (str_in _ ALLOWED_LEVEL_SEGMENTS)); [done|].
  destruct (str_in _ links) eqn:Hseen; [done|].
  apply NoDup_ListNoDup, NoDup_app. split; [by apply NoDup_ListNoDup|].
  split; [|apply NoDup_singleton].
  intros x Hx ->%list_elem_of_singleton.
  apply list_elem_of_In, str_in_In in Hx. congruence.
Qed.

(** X5.  [extract_program_links] never returns the same link twice, and the
    links of an anchor list extended at the end start with the links of the
    shorter list: links are kept in discovery order. *)
Theorem program_links_distinct_in_order :
  (∀ (anchors : list string) (slug : string),
     List.NoDup (extract_program_links anchors slug))
  ∧ (∀ (anchors more : list string) (slug : string),
       ∃ later,
         extract_program_links (anchors ++ more) slug =
           extract_program_links anchors slug ++ later).
Proof.
  split.
  - intros anchors slug. unfold extract_program_links.
    assert (∀ links, List.NoDup links →
                     List.NoDup (foldl (program_link_step slug) links anchors)) as H.
    { induction anchors as [|a anchors IH]; intros links Hnd; [done|].
      cbn [foldl]. by apply IH, program_link_step_NoDup. }
    apply H. constructor.
  - intros anchors more slug. unfold extract_program_links.
    rewrite foldl_app.
    generalize (foldl (program_link_step slug) [] anchors) as links.
    induction more as [|a more IH]; intros links.
    + exists []. by rewrite app_nil_r.
    + cbn [foldl]. destruct (IH (program_link_step slug links a)) as [later ->].
      assert (∃ one, program_link_step slug links a = links ++ one) as [one ->].
      { unfold program_link_step.
        destruct (String.eqb _ "N/A"); [exists []; by rewrite app_nil_r|].
        destruct (negb (startswith _ _)); [exists []; by rewrite app_nil_r|].
        destruct (length _ <? 4); [exists []; by rewrite app_nil_r|].
        destruct (negb (str_in _ ALLOWED_LEVEL_SEGMENTS));
          [exists []; by rewrite app_nil_r|].
        destruct (str_in _ links); [exists []; by rewrite app_nil_r|].
        eauto. }
      exists (one ++ later). by rewrite <- app_assoc.
Qed.

Lemma level_segment_values (k v : string) :
  LEVEL_BY_SEGMENT !! k = Some v → In v LEVELS.
Proof.
  unfold LEVEL_BY_SEGMENT.
  repeat (rewrite lookup_insert; case_decide;
          [intros [= <-]; unfold LEVELS; simpl; tauto|]).
  by rewrite lookup_empty.
Qed.

Lemma normalize_level_values (raw_level course_url : string) :
  In (normalize_level raw_level course_url) LEVELS.
Proof.
  rewrite normalize_level_table.
  destruct (level_from_text _) as [found|] eqn:E.
  - unfold level_from_text in E.
    destruct (List.find _ level_keywords) as [row|] eqn:Ef; [|done].
    injection E as <-. apply find_some in Ef as [Hin _].
    unfold level_keywords in Hin.
    repeat (destruct Hin as [<- | Hin]; [unfold LEVELS; simpl; tauto|]).
    destruct Hin.
  - unfold dict_get_default.
    destruct (LEVEL_BY_SEGMENT !! _) as [v|] eqn:Ev.
    + by apply level_segment_values in Ev.
    + unfold LEVELS. simpl. tauto.
Qed.

(** X6.  [normalize_level] always returns one of Bachelor, Master, PhD, MBA,
    Diploma, Certificate, Foundation or the sentinel; "Foundation" is only
    ever read off the URL, never off the level text. *)
Theorem normalize_level_enumeration :
  (∀ raw_level course_url : string,
     In (normalize_level raw_level course_url) LEVELS)
  ∧ (∀ raw_level course_url : string,
       normalize_level raw_level course_url = "Foundation" →
       url_level_segment course_url = "foundation"
       ∧ level_from_text (lower (clean_text (Some raw_level))) = None).
Proof.
  split; [exact normalize_level_values|].
  intros raw url. rewrite normalize_level_table.
  destruct (level_from_text _) as [found|] eqn:E.
  - intros ->. unfold level_from_text in E.
    destruct (List.find _ level_keywords) as [row|] eqn:Ef; [|done].
    injection E as E. apply find_some in Ef as [Hin _].
    unfold level_keywords in Hin.
    repeat (destruct Hin as [<- | Hin]; [done|]). destruct Hin.
  - unfold dict_get_default, LEVEL_BY_SEGMENT.
    repeat (rewrite lookup_insert; case_decide; [by subst|]).
    by rewrite lookup_empty.
Qed.

Lemma normalize_level_enumeration_witness :
  normalize_level "Foundation year"
    (program_url "osmania-university" "foundation" "pre-degree") = "Foundation"
  ∧ url_level_segment (program_url "osmania-university" "foundation" "pre-degree")
    = "foundation"
  ∧ level_from_text (lower (clean_text (Some "Foundation year"))) = None.
Proof.
  split; [reflexivity|].
  exact (proj2 normalize_level_enumeration "Foundation year"
           (program_url "osmania-university" "foundation" "pre-degree") eq_refl).
Defined.

(** ** Course pages *)

Lemma first_bound_In (k v : string) (bs : list (string * string)) :
  first_bound k bs = Some v → In (k, v) bs.
Proof.
  induction bs as [|[k' v'] bs IH]; [done|]. simpl.
  destruct (String.eqb k' k) eqn:E.
  - apply str_eqb_eq in E as ->. intros [= ->]. by left.
  - intros H. right. by apply IH.
Qed.

Lemma omap_In {A B : Type} (f : A → option B) (l : list A) (y : B) :
  In y (omap f l) → ∃ x, In x l ∧ f x = Some y.
Proof.
  induction l as [|x l IH]; [done|]. rewrite omap_cons.
  destruct (f x) as [y'|] eqn:E.
  - intros [<- | H]; [exists x; split; [by left|done]|].
    destruct (IH H) as (x' & Hx' & Hf). exists x'. split; [by right|done].
  - intros H. destruct (IH H) as (x' & Hx' & Hf). exists x'. split; [by right|done].
Qed.

Lemma lower_key_shape (s : string) :
  lower (lower (clean_text (Some s))) = lower (clean_text (Some s))
  ∧ lower (clean_text (Some s)) ≠ "".
Proof.
  split; [apply lower_idem|].
  pose proof (clean_text_nonempty (Some s)) as H.
  by destruct (clean_text (Some s)).
Qed.

Lemma badge_stored_value_cleaned (title value : string) :
  cleaned value → cleaned (badge_stored_value title value).
Proof.
  intros Hv. unfold badge_stored_value.
  destruct (_ && _); [apply cleaned_clean_text|done].
Qed.

Lemma extract_badges_binding (divs : list badge_div) (k v : string) :
  extract_badges divs !! k = Some v →
  cleaned v ∧ lower k = k ∧ k ≠ "".
Proof.
  rewrite extract_badges_last. unfold last_bound.
  intros Hin%first_bound_In. apply in_rev in Hin.
  apply omap_In in Hin as (d & _ & Hd). unfold badge_binding in Hd.
  destruct (badge_title d) as [t|]; [|done].
  destruct (badge_value d) as [x|]; [|done].
  cbv zeta in Hd. apply (inj Some), pair_equal_spec in Hd as [<- <-].
  split; [|apply lower_key_shape].
  apply badge_stored_value_cleaned, cleaned_clean_text.
Qed.

Lemma cleaned_nonempty (v : string) : cleaned v → v ≠ "".
Proof. intros <-. apply clean_text_nonempty. Qed.

(** X7.  Every key of the badge map and of the highlight map is a non-empty
    lower-case text; every value is a fixed point of [clean_text], hence
    not empty; and the highlight map never holds the sentinel. *)
Theorem badge_and_highlight_maps_well_formed :
  (∀ (divs : list badge_div) (k v : string),
     extract_badges divs !! k = Some v →
     clean_text (Some v) = v ∧ v ≠ "" ∧ lower k = k ∧ k ≠ "")
  ∧ (∀ (divs : list highlight_div) (k v : string),
       extract_highlights divs !! k = Some v →
       clean_text (Some v) = v ∧ v ≠ "" ∧ v ≠ "N/A" ∧ lower k = k ∧ k ≠ "").
Proof.
  split.
  - intros divs k v (Hv & Hk & Hne)%extract_badges_binding.
    split; [done|]. split; [by apply cleaned_nonempty|done].
  - intros divs k v. rewrite extract_highlights_first.
    intros Hin%first_bound_In. apply filter_In in Hin as [Hin Hw].
    apply omap_In in Hin as (d & _ & Hd). unfold highlight_binding in Hd.
    destruct (highlight_key d) as [t|]; [|done].
    destruct (highlight_value d) as [x|]; [|done].
    apply (inj Some), pair_equal_spec in Hd as [<- <-].
    split; [apply clean_text_fixed|]. split; [apply clean_text_nonempty|].
    split; [|apply lower_key_shape].
    unfold writable in Hw. cbn [snd] in Hw.
    apply negb_true_iff, str_eqb_neq in Hw. done.
Qed.

Lemma badge_and_highlight_maps_well_formed_witness :
  let badges := [{| badge_title := Some " Tuition  Fee/Year";
                    badge_value := Some "30,000  INR " |}] in
  let blocks := [{| highlight_key := Some "Study Level";
                    highlight_value := Some " Masters" |}] in
  (extract_badges badges !! "tuition fee/year" = Some "30,000 INR"
   ∧ clean_text (Some "30,000 INR") = "30,000 INR")
  ∧ (extract_highlights blocks !! "study level" = Some "Masters"
     ∧ "Masters" ≠ "N/A").
Proof.
  cbv zeta. split.
  - split; [reflexivity|].
    exact (proj1 (proj1 badge_and_highlight_maps_well_formed
                    [{| badge_title := Some " Tuition  Fee/Year";
                        badge_value := Some "30,000  INR " |}]
                    "tuition fee/year" "30,000 INR" eq_refl)).
  - split; [reflexivity|].
    exact (proj1 (proj2 (proj2 (proj2 badge_and_highlight_maps_well_formed
                    [{| highlight_key := Some "Study Level";
                        highlight_value := Some " Masters" |}]
                    "study level" "Masters" eq_refl)))).
Defined.

Lemma badge_lookup_or (badges : gmap string string) (divs : list badge_div)
    (k1 k2 : string) :
  badges = extract_badges divs →
  clean_text (py_or (badges !! k1) (badges !! k2)) =
    match badges !! k1, badges !! k2 with
    | Some v, _ => v
    | None, Some v => v
    | None, None => "N/A"
    end.
Proof.
  intros ->. unfold py_or.
  destruct (extract_badges divs !! k1) as [v1|] eqn:E1.
  - apply extract_badges_binding in E1 as (Hv & _).
    pose proof (cleaned_nonempty v1 Hv). cbn [truthy].
    destruct v1; [done|]. cbn [is_empty negb]. exact Hv.
  - cbn [truthy].
    destruct (extract_badges divs !! k2) as [v2|] eqn:E2; [|done].
    by apply extract_badges_binding in E2 as (Hv & _).
Qed.

(** X8.  The duration of a scraped course is the value of the badge
    "programme duration" whenever the page has one, otherwise that of the
    badge "duration", otherwise the sentinel; likewise the fees for
    "tuition fee/year" and "tuition fee".  A badge that is present always
    wins over the next one, its stored value being never empty. *)
Theorem scrape_course_badge_precedence
    (soup : course_soup) (course_url university_id : string) :
  let badges := extract_badges (badge_divs soup) in
  let course := scrape_course soup course_url university_id in
  Course.duration course =
    match badges !! "programme duration", badges !! "duration" with
    | Some v, _ => v
    | None, Some v => v
    | None, None => "N/A"
    end
  ∧ Course.fees course =
      match badges !! "tuition fee/year", badges !! "tuition fee" with
      | Some v, _ => v
      | None, Some v => v
      | None, None => "N/A"
      end.
Proof.
  cbv zeta. unfold scrape_course. cbn [Course.duration Course.fees].
  split; by apply (badge_lookup_or _ (badge_divs soup)).
Qed.

Lemma eligibility_pairs_bound (pairs : list string) (blocks : list entry_div) :
  length pairs < 5 → length (eligibility_pairs pairs blocks) ≤ 5.
Proof.
  revert pairs. induction blocks as [|block blocks IH]; intros pairs Hlen.
  { simpl. lia. }
  cbn [eligibility_pairs]. cbv zeta.
  set (pairs' := if _ && _ then pairs ++ _ else pairs).
  assert (length pairs' ≤ 5) as Hle.
  { subst pairs'. destruct (_ && _); [|lia]. rewrite length_app. simpl. lia. }
  destruct (5 <=? length pairs') eqn:E; [done|].
  apply Nat.leb_gt in E. by apply IH.
Qed.

Lemma str_len_take (n : nat) (s : string) : str_len (str_take n s) ≤ n.
Proof.
  revert s. induction n as [|n IH]; intros s; [by destruct s|].
  destruct s as [|c s]; simpl; [lia|]. specialize (IH s). lia.
Qed.

Lemma eligibility_scan_bound (hs : list heading_tag) :
  str_len (eligibility_scan hs) ≤ 220 ∧ eligibility_scan hs ≠ "".
Proof.
  induction hs as [|h hs IH]; [split; [simpl; lia|done]|].
  cbn [eligibility_scan]. cbv zeta.
  destruct (_ || _); [|done].
  destruct (heading_next h) as [candidate|]; [|done].
  destruct (String.eqb (clean_text (Some candidate)) "N/A") eqn:E; [done|].
  cbn [negb]. split; [apply str_len_take|].
  pose proof (clean_text_nonempty (Some candidate)) as Hne.
  by destruct (clean_text (Some candidate)).
Qed.

Lemma join_nonempty (sep w : string) (ws : list string) :
  w ≠ "" → join sep (w :: ws) ≠ "".
Proof.
  intros Hw. destruct ws as [|w' ws]; [done|]. rewrite join_cons_cons.
  destruct w; [done|]. by rewrite app_cons_str.
Qed.

Lemma eligibility_pairs_nonempty (pairs : list string) (blocks : list entry_div) :
  Forall (λ p, p ≠ "") pairs → Forall (λ p, p ≠ "") (eligibility_pairs pairs blocks).
Proof.
  revert pairs. induction blocks as [|block blocks IH]; intros pairs Hp; [done|].
  cbn [eligibility_pairs]. cbv zeta.
  set (label := match entry_label block with Some t => _ | None => _ end).
  set (pairs' := if _ && _ then pairs ++ _ else pairs).
  assert (Forall (λ p, p ≠ "") pairs') as Hp'.
  { subst pairs'. destruct (_ && _); [|done].
    apply Forall_app. split; [done|]. constructor; [|constructor].
    assert (label ≠ "") as Hl.
    { subst label. destruct (entry_label block); [apply clean_text_nonempty|done]. }
    destruct label; [done|]. by rewrite app_cons_str. }
  destruct (5 <=? length pairs'); [done|]. by apply IH.
Qed.

(** X9.  [extract_eligibility] uses at most five label/value pairs; when the
    page has no such pair its result, read off the headings, is at most 220
    characters long; and its result is never the empty string. *)
Theorem extract_eligibility_bounds :
  (∀ blocks : list entry_div, length (eligibility_pairs [] blocks) ≤ 5)
  ∧ (∀ soup : course_soup,
       eligibility_pairs [] (entry_divs soup) = [] →
       str_len (extract_eligibility soup) ≤ 220)
  ∧ (∀ soup : course_soup, extract_eligibility soup ≠ "").
Proof.
  split; [|split].
  - intros blocks. apply eligibility_pairs_bound. simpl. lia.
  - intros soup Hnone. unfold extract_eligibility. rewrite Hnone.
    apply eligibility_scan_bound.
  - intros soup. unfold extract_eligibility.
    pose proof (eligibility_pairs_nonempty [] (entry_divs soup) (Forall_nil_2 _)) as Hp.
    destruct (eligibility_pairs [] (entry_divs soup)) as [|p ps].
    + apply eligibility_scan_bound.
    + inversion Hp; subst. by apply join_nonempty.
Qed.

Lemma extract_eligibility_bounds_witness :
  eligibility_pairs [] (entry_divs history_page) = []
  ∧ str_len (extract_eligibility history_page) ≤ 220
  ∧ extract_eligibility history_page = "Class XII pass.".
Proof.
  split; [reflexivity|].
  split; [exact (proj1 (proj2 extract_eligibility_bounds) history_page eq_refl)|].
  reflexivity.
Defined.

(** ** Source B *)

Lemma has_close_sub_brackets (inside : bool) (s : string) :
  has_close s = false → has_close (sub_brackets_go inside s) = false.
Proof.
  revert inside. induction s as [|c s IH]; intros inside; [done|]. simpl.
  intros [Hc Hs]%orb_false_iff. rewrite Hc.
  destruct inside; [by apply IH|].
  rewrite Hs, andb_false_r. simpl. by rewrite Hc, IH.
Qed.

Lemma sub_brackets_stable (inside : bool) (s : string) :
  sub_brackets_go false (sub_brackets_go inside s) = sub_brackets_go inside s.
Proof.
  revert inside. induction s as [|c s IH]; intros inside; [done|]. simpl.
  destruct inside.
  { destruct (Char.eqb c "]"); apply IH. }
  destruct (Char.eqb c "[" && has_close s) eqn:E; [apply IH|].
  simpl. rewrite IH.
  destruct (Char.eqb c "["); [|done]. simpl in E.
  by rewrite has_close_sub_brackets.
Qed.

Lemma sub_brackets_no_marker (inside : bool) (s : string) :
  has_marker (sub_brackets_go inside s) = false.
Proof.
  revert inside. induction s as [|c s IH]; intros inside; [done|]. simpl.
  destruct inside.
  { destruct (Char.eqb c "]"); apply IH. }
  destruct (Char.eqb c "[" && has_close s) eqn:E; [apply IH|].
  simpl. rewrite IH, orb_false_r.
  destruct (Char.eqb c "["); [|done]. simpl in *.
  by rewrite has_close_sub_brackets.
Qed.

Lemma sub_brackets_unmarked (s : string) :
  has_marker s = false → sub_brackets_go false s = s.
Proof.
  induction s as [|c s IH]; [done|]. simpl.
  intros [-> Hs]%orb_false_iff. by rewrite IH.
Qed.

(** X10.  After [re.sub(r"\[[^\]]*\]", "", s)] no bracketed marker is left
    (no opening bracket is followed, anywhere, by a closing one), so that
    removing the markers a second time changes nothing; a text without any
    marker is returned as it is. *)
Theorem re_sub_brackets_removes_all_markers :
  (∀ s : string, has_marker (re_sub_brackets s) = false)
  ∧ (∀ s : string, re_sub_brackets (re_sub_brackets s) = re_sub_brackets s)
  ∧ (∀ s : string, has_marker s = false → re_sub_brackets s = s).
Proof.
  split; [intros s; apply sub_brackets_no_marker|].
  split; [intros s; apply sub_brackets_stable|].
  exact sub_brackets_unmarked.
Qed.

Lemma re_sub_brackets_removes_all_markers_witness :
  has_marker "Chennai ] Tamil Nadu [ India" = false
  ∧ re_sub_brackets "Chennai ] Tamil Nadu [ India" = "Chennai ] Tamil Nadu [ India"
  ∧ re_sub_brackets "Chennai[1][a], India[[2]] x]" = "Chennai, India] x]".
Proof.
  split; [reflexivity|].
  split; [|reflexivity].
  exact (proj2 (proj2 re_sub_brackets_removes_all_markers)
           "Chennai ] Tamil Nadu [ India" eq_refl).
Defined.

(** ** Deduplication *)







(** ** What [main] collects *)

Lemma LEVELS_cleaned (l : string) : In l LEVELS → cleaned l.
Proof.
  unfold LEVELS. intros Hin.
  repeat (destruct Hin as [<- | Hin]; [reflexivity|]). destruct Hin.
Qed.

(** The cleaning of [clean_courses] leaves a scraped course as it is, when
    its university identifier is clean. *)
Lemma clean_course_row_scraped (soup : course_soup) (url uid : string) :
  cleaned uid →
  clean_course_row (scrape_course soup url uid) = scrape_course soup url uid.
Proof.
  intros Huid. unfold clean_course_row, scrape_course.
  cbn [Course.university_id Course.course_name Course.level Course.discipline
       Course.duration Course.fees Course.eligibility].
  f_equal.
  - exact Huid.
  - destruct (h1 soup); [apply clean_text_fixed|done].
  - apply LEVELS_cleaned, normalize_level_values.
  - by rewrite clean_text_smart_title_case, smart_title_case_idem.
  - apply cleaned_clean_text.
  - apply cleaned_clean_text.
  - apply clean_text_fixed.
Qed.

Lemma clean_course_row_collected (c : Course.t) :
  collected_course c → clean_course_row c = c.
Proof.
  intros (soup & url & idx & ->).
  apply clean_course_row_scraped, clean_university_id.
Qed.

Lemma map_id_on {A : Type} (f : A → A) (l : list A) :
  Forall (λ x, f x = x) l → map f l = l.
Proof. induction 1 as [|x l Hx _ IH]; [done|]. simpl. by rewrite Hx, IH. Qed.


















Lemma course_id_of_inj (i j : nat) : course_id_of i = course_id_of j → i = j.
Proof.
  unfold course_id_of. intros [= H]. apply format_0d_inj in H. lia.
Qed.





Lemma retained_ids_NoDup (idx : nat) (targets : list target) :
  List.NoDup (retained_ids idx targets).
Proof.
  revert idx. induction targets as [|tg targets IH]; intros idx; [constructor|].
  simpl. destruct (retained tg); [|apply IH]. simpl. constructor; [|apply IH].
  intros (i & tg' & _ & _ & Heq%university_id_of_inj)%retained_ids_In. lia.
Qed.

Lemma drop_duplicates_go_NoDup_map {A K B : Type} `{EqDecision K} (key : A → K)
    (f : A → B) (seen : list K) (rows : list A) :
  List.NoDup (map f rows) → List.NoDup (map f (drop_duplicates_go key seen rows)).
Proof.
  revert seen. induction rows as [|row rows IH]; intros seen; [done|]. simpl.
  intros [Hrow Hnd]%List.NoDup_cons_iff. case_bool_decide; [by apply IH|].
  simpl. constructor; [|by apply IH].
  intros (x & Hfx & Hx%drop_duplicates_go_In)%in_map_iff.
  apply Hrow. rewrite <- Hfx. by apply in_map.
Qed.

Lemma retained_ids_cleaned (idx : nat) (targets : list target) :
  Forall (λ id, clean_text (Some id) = id) (retained_ids idx targets).
Proof.
  apply Forall_forall. intros id (i & tg & _ & _ & ->)%list_elem_of_In%retained_ids_In.
  apply clean_university_id.
Qed.

Lemma target_step_intake (st : run_state) (idx : nat) (tg : target) :
  Forall intake_record (universities st) →
  Forall intake_record (universities (target_step st idx tg)).
Proof.
  intros Hst. unfold target_step.
  destruct (university_html tg) as [page|]; [|done]. cbv zeta.
  destruct (String.eqb _ TARGET_COUNTRY) eqn:E; cbn [negb]; [|done].
  rewrite course_loop_universities. cbn [universities].
  apply Forall_app. split; [done|]. constructor; [|constructor].
  apply str_eqb_eq in E. revert E. unfold university_record.
  destruct (reconcile _ _) as [[[name city] country] website]. cbn [fst snd].
  intros E. split; [exact E|]. cbn [University.university_name University.city
                                    University.website].
  split; [apply clean_text_fixed|].
  split; [apply title_cased_smart_title_case|apply clean_text_fixed].
Qed.

Lemma targets_loop_intake (idx : nat) (targets : list target) (st : run_state) :
  Forall intake_record (universities st) →
  Forall intake_record (universities (targets_loop idx targets st)).
Proof.
  revert idx st. induction targets as [|tg targets IH]; intros idx st Hst; [done|].
  cbn [targets_loop]. by apply IH, target_step_intake.
Qed.

Lemma clean_university_row_intake (u : University.t) :
  intake_record u →
  cleaned (University.university_id u) →
  clean_university_row u =
    {| University.university_id := University.university_id u;
       University.university_name := University.university_name u;
       University.country := University.country u;
       University.city := University.city u;
       University.website :=
         if startswith (University.website u) "http"
         then University.website u else "N/A" |}.
Proof.
  intros (Hk & Hn & Hc & Hw) Hid. unfold clean_university_row.
  rewrite Hid, Hn, Hw. f_equal.
  - rewrite Hk. reflexivity.
  - unfold title_cased in Hc. rewrite <- Hc.
    by rewrite clean_text_smart_title_case, smart_title_case_idem.
Qed.

(** X14.  When the run writes its tables, the rows of the Universities
    table have pairwise distinct identifiers, each the identifier of one of
    the targets; every row has exactly the target country as its country,
    and a website that is the sentinel or starts with "http"; and each row
    is a record as it was appended during the run, with nothing changed but
    a website that does not start with "http", which becomes the
    sentinel. *)
Theorem published_universities_well_formed (targets : list target)
    (U : list University.t) (C : list CourseRow.t) :
  main targets = Some (U, C) →
  List.NoDup (map University.university_id U)
  ∧ Forall
      (λ u,
         University.country u = TARGET_COUNTRY
         ∧ (University.website u = "N/A"
            ∨ startswith (University.website u) "http" = true)
         ∧ (∃ i, i < length targets
                 ∧ University.university_id u = university_id_of (S i))
         ∧ ∃ u0,
             In u0 (universities
                      (targets_loop 1 targets
                         {| universities := []; courses := []; global_course_keys := ∅ |}))
             ∧ University.university_id u = University.university_id u0
             ∧ University.university_name u = University.university_name u0
             ∧ University.country u = University.country u0
             ∧ University.city u = University.city u0
             ∧ University.website u =
                 if startswith (University.website u0) "http"
                 then University.website u0 else "N/A")
      U.
Proof.
  intros (st & Hst & _ & _ & [= -> ->])%main_Some.
  pose proof (targets_loop_universities 1 targets
                {| universities := []; courses := []; global_course_keys := ∅ |}) as Hids.
  rewrite <- Hst in Hids. cbn [universities map app] in Hids.
  pose proof (targets_loop_intake 1 targets
                {| universities := []; courses := []; global_course_keys := ∅ |}
                (Forall_nil_2 _)) as Hintake.
  rewrite <- Hst in Hintake.
  assert (∀ u0, In u0 (universities st) →
                ∃ i, i < length targets
                     ∧ University.university_id u0 = university_id_of (S i)) as Hidx.
  { intros u0 Hu0.
    assert (In (University.university_id u0) (retained_ids 1 targets)) as Hin
      by (rewrite <- Hids; by apply in_map).
    apply retained_ids_In in Hin as (i & tg & Hi%lookup_lt_Some & _ & ->). eauto. }
  split.
  - destruct (universities st) as [|u0 us] eqn:E; [constructor|]. rewrite <- E in *.
    unfold clean_universities. rewrite E, <- E. unfold drop_duplicates.
    apply drop_duplicates_go_NoDup_map. rewrite map_map.
    assert (map (λ x, University.university_id (clean_university_row x)) (universities st)
            = map University.university_id (universities st)) as ->.
    { rewrite <- (map_map University.university_id (λ id, clean_text (Some id))).
      rewrite Hids. apply map_id_on, retained_ids_cleaned. }
    rewrite Hids. apply retained_ids_NoDup.
  - apply Forall_forall. intros u (u0 & Hu0 & ->)%list_elem_of_In%clean_universities_In.
    destruct (Hidx u0 Hu0) as (i & Hi & Hid).
    assert (intake_record u0) as Hrec.
    { eapply Forall_forall in Hintake; [exact Hintake|]. by apply list_elem_of_In. }
    rewrite clean_university_row_intake; [|done|by rewrite Hid; apply clean_university_id].
    cbn [University.university_id University.university_name University.country
         University.city University.website].
    split; [apply Hrec|]. split.
    { destruct (startswith (University.website u0) "http") eqn:Eh; [by right|by left]. }
    split; [eauto|]. exists u0. repeat split; try done.
    subst st. exact Hu0.
Qed.

Lemma published_universities_well_formed_witness :
  ∃ U C,
    main sample_targets = Some (U, C)
    ∧ map (λ u, (University.university_id u, University.website u)) U
      = [("U001", "N/A"); ("U003", "https://www.osmania.ac.in")]
    ∧ List.NoDup (map University.university_id U)
    ∧ Forall (λ u, University.country u = TARGET_COUNTRY) U.
Proof.
  destruct (main sample_targets) as [[U C]|] eqn:E; [|by vm_compute in E].
  exists U, C. split; [done|].
  pose proof (published_universities_well_formed sample_targets U C E) as (Hnd & HU).
  vm_compute in E. injection E as <- <-.
  split; [reflexivity|]. split; [exact Hnd|].
  eapply Forall_impl; [exact HU|]. by intros u (Hc & _).
Defined.

(** ** [fetch_html] *)

Lemma fetch_loop_all_fail (get : nat → response) (attempt remaining : nat) :
  (∀ j, attempt ≤ j < attempt + remaining → succeeds (get j) = false) →
  fetch_loop get attempt remaining = (None, seq attempt remaining).
Proof.
  revert attempt. induction remaining as [|n IH]; intros a Hfail; [done|].
  cbn [fetch_loop seq]. pose proof (Hfail a ltac:(lia)) as Ha.
  rewrite IH by (intros j Hj; apply Hfail; lia).
  destruct (get a) as [code text|]; [|done]. simpl in Ha. by rewrite Ha.
Qed.

Lemma fetch_loop_first_success (get : nat → response) (attempt remaining : nat)
    (failed : nat) (text : string) :
  failed < remaining →
  (∀ j, attempt ≤ j < attempt + failed → succeeds (get j) = false) →
  get (attempt + failed) = Response 200 text →
  fetch_loop get attempt remaining = (Some text, seq attempt failed).
Proof.
  revert attempt remaining. induction failed as [|m IH]; intros a n Hlt Hfail Hok.
  - destruct n as [|n]; [lia|]. cbn [fetch_loop seq].
    rewrite Nat.add_0_r in Hok. by rewrite Hok.
  - destruct n as [|n]; [lia|]. cbn [fetch_loop seq].
    pose proof (Hfail a ltac:(lia)) as Ha.
    rewrite (IH (S a) n) by
      (try lia; try (intros j Hj; apply Hfail; lia);
       by rewrite <- Hok, Nat.add_succ_comm).
    destruct (get a) as [code t|]; [|done]. simpl in Ha. by rewrite Ha.
Qed.

Lemma fetch_loop_ext (get get' : nat → response) (attempt remaining : nat) :
  (∀ j, attempt ≤ j < attempt + remaining → get j = get' j) →
  fetch_loop get attempt remaining = fetch_loop get' attempt remaining.
Proof.
  revert attempt. induction remaining as [|n IH]; intros a Heq; [done|].
  cbn [fetch_loop]. rewrite <- (Heq a) by lia.
  by rewrite IH by (intros j Hj; apply Heq; lia).
Qed.

(** X15.  [fetch_html] returns the text of the first attempt, among the
    first [retries] ones, whose response has status 200, and has slept the
    back-off pause after each of the attempts before it and after none
    other; when none of the [retries] attempts has status 200 (other
    status, or a request exception) it returns [None] after sleeping past
    every attempt; and it never looks at an attempt beyond [retries]. *)
Theorem fetch_html_first_success (get : nat → response) (retries : nat) :
  (∀ (k : nat) (text : string),
     1 ≤ k ≤ retries →
     (∀ j, 1 ≤ j < k → succeeds (get j) = false) →
     get k = Response 200 text →
     fetch_html get retries = (Some text, seq 1 (k - 1)))
  ∧ ((∀ j, 1 ≤ j ≤ retries → succeeds (get j) = false) →
     fetch_html get retries = (None, seq 1 retries))
  ∧ (∀ get' : nat → response,
       (∀ j, 1 ≤ j ≤ retries → get j = get' j) →
       fetch_html get retries = fetch_html get' retries).
Proof.
  unfold fetch_html. split; [|split].
  - intros k text Hk Hfail Hok.
    apply fetch_loop_first_success; [lia| |].
    + intros j Hj. apply Hfail. lia.
    + by replace (1 + (k - 1)) with k by lia.
  - intros Hfail. apply fetch_loop_all_fail. intros j Hj. apply Hfail. lia.
  - intros get' Heq. apply fetch_loop_ext. intros j Hj. apply Heq. lia.
Qed.

Lemma fetch_html_first_success_witness :
  let get := λ attempt,
    match attempt with
    | 1 => Response 503 "busy"
    | 2 => RequestException
    | _ => Response 200 "<html></html>"
    end in
  (1 ≤ 3 ≤ 3)
  ∧ (∀ j, 1 ≤ j < 3 → succeeds (get j) = false)
  ∧ fetch_html get 3 = (Some "<html></html>", [1; 2])
  ∧ fetch_html get 2 = (None, [1; 2]).
Proof.
  intros get.
  assert (∀ j, 1 ≤ j < 3 → succeeds (get j) = false) as Hfail.
  { intros j Hj. assert (j = 1 ∨ j = 2) as [-> | ->] by lia; reflexivity. }
  split; [lia|]. split; [exact Hfail|]. split.
  - exact (proj1 (fetch_html_first_success get 3) 3 "<html></html>"
             ltac:(lia) Hfail eq_refl).
  - apply (proj1 (proj2 (fetch_html_first_success get 2))).
    intros j Hj. apply Hfail. lia.
Defined.

(** ** Identifiers and the outcome of the run *)

(** X16.  A university identifier is "U" followed by at least three decimal
    digits that denote the index of the target, and a course identifier is
    "C" followed by at least four digits that denote the row number counted
    from 1; reading the digits back gives the number, so different numbers
    get different identifiers; and the identifiers are left as they are by
    [clean_text]. *)
Theorem identifiers_round_trip :
  (∀ idx : nat,
     ∃ digits,
       university_id_of idx = "U" +:+ digits
       ∧ str_forallb Char.is_digit digits = true
       ∧ 3 ≤ str_len digits
       ∧ parse_nat digits = Some idx)
  ∧ (∀ i : nat,
       ∃ digits,
         course_id_of i = "C" +:+ digits
         ∧ str_forallb Char.is_digit digits = true
         ∧ 4 ≤ str_len digits
         ∧ parse_nat digits = Some (i + 1))
  ∧ (∀ i j : nat, university_id_of i = university_id_of j → i = j)
  ∧ (∀ i j : nat, course_id_of i = course_id_of j → i = j)
  ∧ (∀ idx : nat, clean_text (Some (university_id_of idx)) = university_id_of idx).
Proof.
  split; [|split; [|split; [|split]]].
  - intros idx. exists (format_0d 3 idx). split; [done|].
    split; [apply format_0d_digits|].
    split; [apply format_0d_width|apply parse_nat_format_0d].
  - intros i. exists (format_0d 4 (i + 1)). split; [done|].
    split; [apply format_0d_digits|].
    split; [apply format_0d_width|apply parse_nat_format_0d].
  - exact university_id_of_inj.
  - exact course_id_of_inj.
  - exact clean_university_id.
Qed.

Lemma identifiers_round_trip_witness :
  university_id_of 1000 = "U1000" ∧ course_id_of 0 = "C0001"
  ∧ (university_id_of 7 = university_id_of 7 → 7 = 7).
Proof.
  split; [reflexivity|]. split; [reflexivity|].
  exact (proj1 (proj2 (proj2 identifiers_round_trip)) 7 7).
Defined.

Lemma retained_ids_nil (idx : nat) (targets : list target) :
  retained_ids idx targets = [] ↔ Forall (λ tg, retained tg = false) targets.
Proof.
  revert idx. induction targets as [|tg targets IH]; intros idx.
  { split; [constructor|done]. }
  simpl. split.
  - destruct (retained tg) eqn:E; [done|]. simpl. intros H.
    constructor; [done|]. by apply (IH (S idx)).
  - intros H. inversion H as [|? ? Htg Hrest]; subst. rewrite Htg. simpl.
    by apply IH.
Qed.

(** X17.  The run returns without writing its workbook exactly when no
    university was retained or no course was collected; no university is
    retained exactly when no target has a page that could be fetched and a
    normalized country equal to the target country. *)
Theorem run_writes_nothing_iff (targets : list target) :
  let st := targets_loop 1 targets
              {| universities := []; courses := []; global_course_keys := ∅ |} in
  (main targets = None ↔ universities st = [] ∨ courses st = [])
  ∧ (universities st = [] ↔
     Forall (λ tg, normalized_country_of tg ≠ Some TARGET_COUNTRY) targets).
Proof.
  cbv zeta. split; [apply assemble_None|].
  pose proof (targets_loop_universities 1 targets
                {| universities := []; courses := []; global_course_keys := ∅ |}) as Hids.
  cbn [universities map app] in Hids.
  assert (∀ tg, retained tg = false ↔ normalized_country_of tg ≠ Some TARGET_COUNTRY)
    as Hret.
  { intros tg. unfold retained. destruct (normalized_country_of tg) as [nc|]; [|done].
    rewrite str_eqb_neq. split; [congruence|]. intros H ->. done. }
  split.
  - intros Hnil. rewrite Hnil in Hids. symmetry in Hids.
    apply retained_ids_nil in Hids. eapply Forall_impl; [exact Hids|].
    intros tg. apply Hret.
  - intros Hall.
    assert (retained_ids 1 targets = []) as Hnil.
    { apply retained_ids_nil. eapply Forall_impl; [exact Hall|].
      intros tg. apply Hret. }
    rewrite Hnil in Hids. by destruct (universities _).
Qed.

Lemma run_writes_nothing_iff_witness :
  let targets := [ {| slug := "university-oxford";
                      university_html :=
                        Some {| jsonld_objects := [Some oxford_profile];
                                topuni_h1 := None;
                                anchors := [] |};
                      wiki_html := None;
                      course_html := no_fetch |} ] in
  Forall (λ tg, normalized_country_of tg ≠ Some TARGET_COUNTRY) targets
  ∧ main targets = None.
Proof.
  intros targets.
  assert (Forall (λ tg, normalized_country_of tg ≠ Some TARGET_COUNTRY) targets) as H.
  { constructor; [by vm_compute|constructor]. }
  split; [exact H|].
  destruct (run_writes_nothing_iff targets) as [Hnone Huni].
  apply Hnone. left. by apply Huni.
Defined.



(** ** Resolved locations *)









(** ** Discipline and website *)





